(** * micro lpd (printutils/lpd.c): a shallow embedding and its properties

    The session handler of [lpd_main] is embedded as pure functions over an
    explicit world (input stream, output events, current directory,
    environment).  Every [goto err_exit] of the source is a result of the
    error type [flow]; the cleanup label itself is the function [err_exit].
    Numbers of type [int] are values of [Z] with the 32-bit wrap-around
    written out; bytes are [ascii]; C strings are lists of bytes that end at
    the first NUL. *)

From Stdlib Require Import ZArith Ascii String List Lia Bool.
From stdpp Require Import gmap strings list fin_maps.
Import ListNotations.

Set Warnings "-register-all".

(** ** Bytes and character classes *)

Definition byte_val (c : ascii) : Z := Z.of_N (N_of_ascii c).

Definition NUL : ascii := ascii_of_N 0.
Definition LF : ascii := ascii_of_N 10.       (* '\n' *)
Definition SP : ascii := ascii_of_N 32.       (* ' ' *)

Definition is_nul (c : ascii) : bool := (byte_val c =? 0)%Z.
Definition is_char (c d : ascii) : bool := (byte_val c =? byte_val d)%Z.

Definition in_range (lo hi : Z) (c : ascii) : bool :=
  ((lo <=? byte_val c) && (byte_val c <=? hi))%Z.

(** The C library's classification in the "C" locale (lpd never calls
    setlocale). *)
Definition isdigit (c : ascii) : bool := in_range 48 57 c.         (* '0'..'9' *)
Definition isupper (c : ascii) : bool := in_range 65 90 c.         (* 'A'..'Z' *)
Definition islower (c : ascii) : bool := in_range 97 122 c.        (* 'a'..'z' *)
Definition isalpha (c : ascii) : bool := isupper c || islower c.
Definition isalnum (c : ascii) : bool := isalpha c || isdigit c.

(** ** C strings *)

(** The string a [char *] denotes: the bytes before the first NUL. *)
Fixpoint c_str (buf : list ascii) : list ascii :=
  match buf with
  | [] => []
  | c :: rest => if is_nul c then [] else c :: c_str rest
  end.

(** [strchr(s, ch)]: [None] when [ch] does not occur, otherwise the text
    before the first occurrence and the text after it. *)
Fixpoint strchr (ch : ascii) (s : list ascii) : option (list ascii * list ascii) :=
  match s with
  | [] => None
  | c :: rest =>
      if is_char c ch then Some ([], rest)
      else match strchr ch rest with
           | Some (before, after) => Some (c :: before, after)
           | None => None
           end
  end.

(** [*strchrnul(s, ch) = '\0']: the string cut at the first [ch]. *)
Definition cut_at (ch : ascii) (s : list ascii) : list ascii :=
  match strchr ch s with
  | Some (before, _) => before
  | None => s
  end.

(** ** sane (lpd.c lines 69-81) *)

(** The test of line 74. *)
Definition sane_char (c : ascii) : bool :=
  isalnum c || is_char (ascii_of_N 45) c || is_char (ascii_of_N 95) c.  (* '-' , '_' *)

(** The loop of lines 73-78: [s] is the text still to be read, [written] the
    bytes already stored through [p].  The write pointer never overtakes the
    read pointer, so the stores do not change what is read. *)
Fixpoint sane_loop (written s : list ascii) : list ascii :=
  match s with
  | [] => written
  | c :: s' =>
      if is_nul c then written                          (* while ( *s ) *)
      else if sane_char c then sane_loop (written ++ [c]) s'   (* *p++ = *s *)
      else sane_loop written s'                          (* s++ *)
  end.

(** [sane(str)]: the C string left in [str] after line 79. *)
Definition sane (str : list ascii) : list ascii := sane_loop [] str.

(** ** Numbers *)

Definition UINT_MAX : Z := 2 ^ 32 - 1.
Definition INT_MAX : Z := 2 ^ 31 - 1.

(** Conversion of a 32-bit pattern to [int] (two's complement). *)
Definition to_int (v : Z) : Z :=
  let u := (v mod 2 ^ 32)%Z in
  if (u <=? INT_MAX)%Z then u else (u - 2 ^ 32)%Z.

(** Value of a string of decimal digits; [None] if a byte is not a digit. *)
Fixpoint decimal (acc : Z) (s : list ascii) : option Z :=
  match s with
  | [] => Some acc
  | c :: rest =>
      if isdigit c then decimal (10 * acc + (byte_val c - 48))%Z rest else None
  end.

(** Modelled from the spec: [bb_strtou] of libbb is not part of the sources
    at hand; the spec speaks of a "malformed or out-of-range declared
    length".  The result is the value and whether [errno] is set: a string
    that is empty, holds a byte that is not a decimal digit, or denotes a
    value above [UINT_MAX] sets [errno] and yields [UINT_MAX]. *)
Definition bb_strtou (arg : list ascii) : Z * bool :=
  match arg with
  | [] => (UINT_MAX, true)
  | _ => match decimal 0 arg with
         | Some v => if (v <=? UINT_MAX)%Z then (v, false) else (UINT_MAX, true)
         | None => (UINT_MAX, true)
         end
  end.

(** ** The world of a session *)

(** File names, queue names and variable names are C strings. *)
Abbreviation name := (list ascii) (only parsing).

(** A directory entry: a regular file or device with its permission bits and
    content, or a directory. *)
Inductive node :=
| Reg (mode : Z) (data : list ascii)
| Dir (entries : gmap (list ascii) node).

(** What the peer receives.  [xdup2(STDOUT_FILENO, STDERR_FILENO)] of line
    136 sends the diagnostics of libbb down the same channel. *)
Inductive event :=
| Ack                                   (* safe_write(STDOUT_FILENO, "", 1) *)
| NotSupported (cmd : Z)                (* "Command %02x is not supported\n" *)
| DuplicatedSubcommand                  (* "Duplicated subcommand\n" *)
| NoOrBadFilename                       (* "No or bad filename\n" *)
| BadLength                             (* "Bad length\n" *)
| FileIsTooBig                          (* "File is too big\n" *)
| ExpectedButGot (expected got : Z)     (* "Expected %d but got %d bytes\n" *)
| CannotOpen (fname : name).            (* the message of open3_or_warn / xopen *)

Record world := World {
  stdin : list ascii;                    (* what the peer still has to send *)
  stdout : list event;                   (* what the peer was sent, oldest first *)
  cwd : gmap (list ascii) node;          (* the current directory *)
  env : gmap (list ascii) (list ascii)   (* the process environment *)
}.

Definition set_stdin (i : list ascii) (w : world) : world :=
  World i (stdout w) (cwd w) (env w).
Definition put (e : event) (w : world) : world :=
  World (stdin w) (stdout w ++ [e]) (cwd w) (env w).
Definition set_cwd (d : gmap (list ascii) node) (w : world) : world :=
  World (stdin w) (stdout w) d (env w).
Definition set_env (e : gmap (list ascii) (list ascii)) (w : world) : world :=
  World (stdin w) (stdout w) (cwd w) e.

(** The local variables of [lpd_main] that live across iterations. *)
Record locals := Locals {
  spooling : Z;
  seen : Z;
  filenames0 : option name;              (* filenames[0], ctrlfile name *)
  filenames1 : option name;              (* filenames[1], datafile name *)
  queue : name
}.

Definition set_spooling (x : Z) (v : locals) : locals :=
  Locals x (seen v) (filenames0 v) (filenames1 v) (queue v).
Definition set_seen (x : Z) (v : locals) : locals :=
  Locals (spooling v) x (filenames0 v) (filenames1 v) (queue v).
(** [filenames[i] = fname] for [i] = 0 or 1. *)
Definition set_filename (i : Z) (fname : name) (v : locals) : locals :=
  if (i =? 0)%Z
  then Locals (spooling v) (seen v) (Some fname) (filenames1 v) (queue v)
  else Locals (spooling v) (seen v) (filenames0 v) (Some fname) (queue v).

Definition EXIT_SUCCESS : Z := 0.
Definition EXIT_FAILURE : Z := 1.

(** How the process ends. *)
Inductive outcome :=
| Returned (status : Z) (w : world)       (* return from lpd_main *)
| Died (w : world)                        (* an x-function of libbb gave up: exit(1) *)
| Exec (argv : list name) (w : world)     (* BB_EXECVP of the helper *)
| Fault                                   (* a NULL pointer was dereferenced *)
| OutOfFuel.

(** The result of a stretch of the loop body: control falls through with a
    value, jumps to [err_exit], or the process ends. *)
Inductive flow (A : Type) : Type :=
| Go (a : A)
| ErrExit (v : locals) (w : world)
| Leave (o : outcome).
Arguments Go {A} a.
Arguments ErrExit {A} v w.
Arguments Leave {A} o.

#[global] Instance flow_bind : MBind flow := fun A B f m =>
  match m with
  | Go a => f a
  | ErrExit v w => ErrExit v w
  | Leave o => Leave o
  end.
#[global] Instance flow_ret : MRet flow := fun A a => Go a.

(** ** The library calls *)

(** Modelled from the spec: [xmalloc_reads] of libbb, called by
    [xmalloc_read_stdin] (lines 116-121) with a cap of 4 KB: "reads one
    bounded chunk from the input stream up to and including a line
    terminator, or returns an end-of-stream indicator".  [read_line n i]
    gives the chunk and the rest of the stream. *)
Fixpoint read_line (n : nat) (i : list ascii) : list ascii * list ascii :=
  match n, i with
  | O, _ => ([], i)
  | _, [] => ([], [])
  | S n', c :: rest =>
      if is_char c LF then ([c], rest)
      else let '(chunk, rest') := read_line n' rest in (c :: chunk, rest')
  end.

Definition xmalloc_read_stdin (w : world) : option (list ascii * world) :=
  match stdin w with
  | [] => None
  | i => let '(chunk, rest) := read_line 4096 i in Some (chunk, set_stdin rest w)
  end.

(** [chdir(queue)]: 0 and the new current directory, or -1. *)
Definition chdir (q : name) (w : world) : Z * world :=
  match cwd w !! q with
  | Some (Dir entries) => (0, set_cwd entries w)
  | _ => (-1, w)
  end%Z.

(** [unlink(fname)]: removes a file, fails on a directory or a missing name. *)
Definition unlink (fname : name) (w : world) : world :=
  match cwd w !! fname with
  | Some (Reg _ _) => set_cwd (delete fname (cwd w)) w
  | _ => w
  end.

(** A file descriptor is the name it was opened under ([None] is -1); no
    file is renamed or removed while a descriptor is open. *)
Definition fd_t := option name.

(** [open3_or_warn(fname, O_CREAT | O_WRONLY | O_TRUNC | O_EXCL, mode)]: fails
    with a warning if the name is empty or taken. *)
Definition open3_or_warn (fname : name) (mode : Z) (w : world) : option world :=
  match fname, cwd w !! fname with
  | _ :: _, None => Some (set_cwd (<[fname := Reg mode []]> (cwd w)) w)
  | _, _ => None
  end.

(** [xopen(fname, O_RDWR | O_APPEND)]: the file must exist. *)
Definition xopen (fname : name) (w : world) : option fd_t :=
  match cwd w !! fname with
  | Some (Reg _ _) => Some (Some fname)
  | _ => None
  end.

Definition append_data (bytes : list ascii) (n : node) : node :=
  match n with
  | Reg mode data => Reg mode (data ++ bytes)
  | Dir entries => Dir entries
  end.

Definition write_fd (fd : fd_t) (bytes : list ascii) (w : world) : world :=
  match fd with
  | Some fname => set_cwd (alter (append_data bytes) fname (cwd w)) w
  | None => w                              (* dst_fd == -1: the bytes are dropped *)
  end.

(** Modelled from the spec: [bb_copyfd_size] of libbb: "given an expected
    byte length and a destination descriptor, copies exactly that many bytes
    from the input stream to the destination"; when the stream ends early
    it copies what there is.  The result is the number of bytes copied. *)
Definition bb_copyfd_size (fd : fd_t) (size : Z) (w : world) : Z * world :=
  let n := Z.to_nat size in
  let bytes := take n (stdin w) in
  (Z.of_nat (length bytes), write_fd fd bytes (set_stdin (drop n (stdin w)) w)).

(** [safe_read(STDIN_FILENO, s, 1)]: the byte read, or [None] at end of
    stream (the call then returns 0, not 1). *)
Definition safe_read1 (w : world) : option (ascii * world) :=
  match stdin w with
  | [] => None
  | c :: rest => Some (c, set_stdin rest w)
  end.

Definition set_mode (mode : Z) (n : node) : node :=
  match n with
  | Reg _ data => Reg mode data
  | Dir entries => Dir entries
  end.

(** [fchmod(fd, mode)]. *)
Definition fchmod (fd : fd_t) (mode : Z) (w : world) : world :=
  match fd with
  | Some fname => set_cwd (alter (set_mode mode) fname (cwd w)) w
  | None => w
  end.

(** [xsetenv(key, value)]: setenv with overwrite. *)
Definition xsetenv (key value : list ascii) (w : world) : world :=
  set_env (<[key := value]> (env w)) w.

(** Modelled from the spec: [xmalloc_open_read_close] of libbb "reads the
    full content of the control file"; [None] is the NULL it returns when
    the file cannot be opened. *)
Definition xmalloc_open_read_close (fname : name) (w : world) : option (list ascii) :=
  match cwd w !! fname with
  | Some (Reg _ data) => Some data
  | _ => None
  end.

(** ** exec_helper (lpd.c lines 85-114) *)

Definition DATAFILE : name := list_ascii_of_string "DATAFILE".

(** The loop of lines 96-107 over the C string [q].  Every turn moves [q]
    past a newline, so [length q] turns are enough. *)
Fixpoint setenv_lines (fuel : nat) (q : list ascii) (w : world) : world :=
  match fuel with
  | O => w
  | S fuel' =>
      match strchr LF q with                              (* p = strchr(q, '\n') *)
      | None => w
      | Some (line, p) =>
          match line with
          | [] => w                                       (* *q is the newline *)
          | var :: value =>
              if isalpha var                              (* isalpha( *q ) *)
              then setenv_lines fuel' p (xsetenv [var] value w)
              else w
          end
      end
  end.

(** [exec_helper(filenames, argv)].  [bb_daemonize_or_rexec] only redirects
    the standard descriptors; [Exec] stands for the call of [BB_EXECVP]. *)
Definition exec_helper (v : locals) (argv : list name) (w : world) : outcome :=
  match filenames0 v, filenames1 v with
  | Some ctrlfile, Some datafile =>
      match xmalloc_open_read_close ctrlfile w with       (* 91 *)
      | None => Fault                                     (* strchr(NULL, ...) *)
      | Some content =>
          let q := c_str content in
          let w := unlink ctrlfile w in                   (* 92 *)
          let w := xsetenv DATAFILE datafile w in         (* 94 *)
          Exec argv (setenv_lines (length q) q w)         (* 96-112 *)
      end
  | _, _ => Fault
  end.

(** ** lpd_main (lpd.c lines 124-281) *)

(** Lines 272-280. *)
Definition unlink_opt (fname : option name) (w : world) : world :=
  match fname with
  | Some f => unlink f w
  | None => w
  end.

Definition err_exit (v : locals) (w : world) : outcome :=
  let w := if negb (spooling v =? 0)%Z
           then unlink_opt (filenames1 v) (unlink_opt (filenames0 v) w)
           else w in
  Returned EXIT_FAILURE w.

Local Open Scope Z_scope.

(** Lines 170-219: acknowledge, read the subcommand and validate it.  The
    result is [s[0]], [expected_len] and [fname]. *)
Definition read_subcmd (v : locals) (w : world)
  : flow (Z * Z * name * locals * world) :=
  let w := put Ack w in                                             (* 171 *)
  match xmalloc_read_stdin w with                                   (* 176 *)
  | None =>
      if negb (spooling v =? 0) then ErrExit v w                    (* 178-181 *)
      else Leave (Returned EXIT_SUCCESS w)                          (* 183 *)
  | Some (s, w) =>
      let s0 := byte_val (hd NUL s) in
      if negb (s0 =? 2) && negb (s0 =? 3) then                      (* 188 *)
        ErrExit v (put (NotSupported s0) w)                         (* 146-148 *)
      else if negb (Z.land (seen v) (s0 - 1) =? 0) then             (* 190 *)
        ErrExit v (put DuplicatedSubcommand w)                      (* 191-192 *)
      else
        let v := set_seen (Z.land (seen v) (s0 - 1)) v in           (* 194 *)
        let s := cut_at LF (c_str s) in                             (* 196 *)
        match strchr SP s with                                      (* 197 *)
        | None => ErrExit v (put NoOrBadFilename w)                 (* 198-202 *)
        | Some (cmd_len, fname) =>                                  (* 203 *)
            let '(value, errno) := bb_strtou (tl cmd_len) in        (* 209 *)
            let expected_len := to_int value in
            if errno || (expected_len <? 0) then                    (* 210 *)
              ErrExit v (put BadLength w)
            else if (s0 =? 2) && (16 * 1024 <? expected_len) then   (* 214 *)
              ErrExit v (put FileIsTooBig w)
            else Go (s0, expected_len, fname, v, w)
        end
  end.

(** Lines 221-236: open the destination. *)
Definition open_dest (s0 : Z) (fname : name) (v : locals) (w : world)
  : flow (fd_t * locals * world) :=
  if negb (spooling v =? 0) then                                    (* 222 *)
    let fname := sane fname in                                      (* 225 *)
    match open3_or_warn fname 128 w with                            (* 226: mode 0200 *)
    | None => ErrExit v (put (CannotOpen fname) w)                  (* 227-228 *)
    | Some w => Go (Some fname, set_filename (s0 - 2) fname v, w)   (* 229 *)
    end
  else if s0 =? 3 then                                              (* 234 *)
    match xopen (queue v) w with                                    (* 235 *)
    | None => Leave (Died (put (CannotOpen (queue v)) w))
    | Some fd => Go (fd, v, w)
    end
  else Go (None, v, w).                                             (* 233: fd = -1 *)

(** Lines 238-251: copy the file and read the acknowledgement into [s[0]].
    The result is the new [s[0]]. *)
Definition transfer (fd : fd_t) (expected_len : Z) (v : locals) (w : world)
  : flow (Z * world) :=
  let '(real_len, w) := bb_copyfd_size fd expected_len w in         (* 239 *)
  if negb (real_len =? expected_len) then                           (* 240 *)
    ErrExit v (put (ExpectedButGot expected_len real_len) w)
  else
    match safe_read1 w with                                         (* 246 *)
    | None => ErrExit v w
    | Some (c, w) =>
        let s0 := byte_val c in
        if negb (s0 =? 0) then ErrExit v w else Go (s0, w)
    end.

(** Lines 253-269: [s0] is what [s[0]] holds at line 258. *)
Definition commit (argv : list name) (fd : fd_t) (s0 : Z) (v : locals) (w : world)
  : flow (locals * world) :=
  let '(v, w) :=
    if negb (spooling v =? 0)                                       (* 253 *)
    then (set_spooling (to_int (spooling v + s0)) v,                (* 258 *)
          fchmod fd 384 w)                                          (* 255: mode 0600 *)
    else (v, w) in
  match argv with
  | _ :: _ =>
      if spooling v =? 6                                            (* 264 *)
      then Leave (exec_helper v argv (put Ack w))                   (* 266-268 *)
      else Go (v, w)
  | [] => Go (v, w)
  end.

(** One turn of the loop of lines 163-270.  The [s0] that [commit] receives
    is the one [transfer] returns: line 246 reads the acknowledgement into
    [s], so at line 258 [s[0]] is no longer the subcommand byte. *)
Definition lpd_iter (argv : list name) (v : locals) (w : world)
  : flow (locals * world) :=
  '(s0, expected_len, fname, v, w) ← read_subcmd v w;
  '(fd, v, w) ← open_dest s0 fname v w;
  '(s0, w) ← transfer fd expected_len v w;
  commit argv fd s0 v w.

Fixpoint lpd_loop (fuel : nat) (argv : list name) (v : locals) (w : world) : outcome :=
  match fuel with
  | O => OutOfFuel
  | S fuel' =>
      match lpd_iter argv v w with
      | Go (v, w) => lpd_loop fuel' argv v w
      | ErrExit v w => err_exit v w
      | Leave o => o
      end
  end.

(** Lines 138-160, once line 133 has entered the spool directory:
    [spooling0] is the indeterminate value [spooling] holds before line 159
    (line 274 reads it when the first command is not supported). *)
Definition lpd_start (spooling0 : Z) (w : world) : flow (locals * world) :=
  match xmalloc_read_stdin w with                                   (* 142 *)
  | None => Leave Fault                                             (* 144: *queue, queue == NULL *)
  | Some (s, w) =>
      let s0 := byte_val (hd NUL s) in
      if negb (s0 =? 2) then                                        (* 144 *)
        ErrExit (Locals spooling0 0 None None [])
                (put (NotSupported s0) w)                           (* 146-148 *)
      else
        match sane (tl s) with                                      (* 152-155 *)
        | [] => Leave (Returned EXIT_FAILURE w)                     (* 156 *)
        | queue =>
            let '(r, w) := chdir queue w in                         (* 159 *)
            Go (Locals (r + 1) 0 None None queue, w)                (* 159-160 *)
        end
  end.

(** [lpd_main]: [argv] is the helper's command line, empty when there is
    none.  Every turn of the loop takes at least one byte off the input,
    hence the fuel. *)
Definition lpd_main (spooling0 : Z) (argv : list name) (w : world) : outcome :=
  match lpd_start spooling0 w with
  | Go (v, w) => lpd_loop (S (length (stdin w))) argv v w
  | ErrExit v w => err_exit v w
  | Leave o => o
  end.

(** [exit(status)] as the parent sees it; [Exec] replaces the process and
    [Fault] ends it by a signal. *)
Definition exit_status (o : outcome) : option Z :=
  match o with
  | Returned status _ => Some status
  | Died _ => Some EXIT_FAILURE              (* xfunc_error_retval *)
  | _ => None
  end.

Definition final_world (o : outcome) : option world :=
  match o with
  | Returned _ w | Died w | Exec _ w => Some w
  | _ => None
  end.

Definition is_exec (o : outcome) : bool :=
  match o with Exec _ _ => true | _ => false end.

(** The values an [int] can hold. *)
Definition int_range (x : Z) : Prop := - 2 ^ 31 <= x <= INT_MAX.

(** ** The specification's reading, for comparison with the code *)

(** Follows the spec's words, "every character not in [A-Za-z0-9_-]
    removed": the characters that stay. *)
Definition spec_charset : list ascii :=
  list_ascii_of_string
    "ABCDEFGHIJKLMNOPQRSTUVWXYZabcdefghijklmnopqrstuvwxyz0123456789_-".

Definition in_spec_charset (c : ascii) : bool :=
  existsb (Ascii.eqb c) spec_charset.

(** Follows the spec's words, "scans the control file content line by
    line": the lines of a text, each without its newline; [cur] is the
    beginning of the line being read.  What follows the last newline is not
    a line. *)
Fixpoint spec_lines (cur text : list ascii) : list (list ascii) :=
  match text with
  | [] => []
  | c :: rest =>
      if is_char c LF then cur :: spec_lines [] rest
      else spec_lines (cur ++ [c]) rest
  end.

(** "a line is only processed while its first character is an alphabetic
    letter - that character becomes the binding's name and the remainder of
    the line becomes its value; processing stops at the first line that
    fails this test". *)
Fixpoint spec_directives (lines : list (list ascii)) : list (name * list ascii) :=
  match lines with
  | (c :: value) :: more =>
      if isalpha c then ([c], value) :: spec_directives more else []
  | _ => []
  end.

(** The bindings added to an environment, later ones overriding. *)
Definition bind_all (bs : list (name * list ascii))
    (e : gmap (list ascii) (list ascii)) : gmap (list ascii) (list ascii) :=
  fold_left (fun e b => <[b.1 := b.2]> e) bs e.

(** Follows the code comment of line 257 and the spec's "received-files"
    state: the counter that starts at 1 and grows by 2 for a control file
    and by 3 for a data file. *)
Inductive receipt := CtrlFile | DataFile.

Definition receipt_code (r : receipt) : Z :=
  match r with CtrlFile => 2 | DataFile => 3 end.

Definition spec_counter (rs : list receipt) : Z :=
  fold_left (fun acc r => acc + receipt_code r) rs 1.

Definition is_ctrl (r : receipt) : bool :=
  match r with CtrlFile => true | DataFile => false end.

Definition count_ctrl (rs : list receipt) : nat := length (List.filter is_ctrl rs).
Definition count_data (rs : list receipt) : nat :=
  length (List.filter (fun r => negb (is_ctrl r)) rs).

(** ** Sample sessions *)

Definition B (s : string) : list ascii := list_ascii_of_string s.
Definition byte (n : N) : list ascii := [ascii_of_N n].

(** A spool directory with a queue directory [q] and a printer file [lp0]. *)
Definition sample_queue_dir : gmap (list ascii) node :=
  <[B "old" := Reg 384 (B "x")]> ∅.
Definition sample_spool : gmap (list ascii) node :=
  <[B "q" := Dir sample_queue_dir]> (<[B "lp0" := Reg 438 (B "prev")]> ∅).

Definition sample_world (input : list ascii) : world :=
  World input [] sample_spool ∅.

Definition receive_job (q : string) : list ascii := byte 2 ++ B q ++ [LF].
(** A subcommand line, the payload and the acknowledgement byte. *)
Definition subcommand (cmd : N) (len_fname : string) (payload : list ascii) (ack : N)
  : list ascii :=
  byte cmd ++ B len_fname ++ [LF] ++ payload ++ byte ack.

(** The locals with which the loop is entered in spooling mode. *)
Definition spooling_locals : locals := Locals 1 0 None None (B "q").
Definition queue_world (input : list ascii) : world :=
  World input [] sample_queue_dir ∅.

(** A control file whose fourth line does not begin with a letter. *)
Definition sample_ctrl : list ascii :=
  B "Hhost" ++ [LF] ++ B "Puser" ++ [LF] ++ B "Jtest" ++ [LF] ++ B "1x" ++ [LF]
  ++ B "Llate" ++ [LF].

(** A data file sent twice under two names, then the end of the stream. *)
Definition two_data_files : list ascii :=
  subcommand 3 "1 dfA" (B "a") 0 ++ subcommand 3 "1 dfB" (B "b") 0.

(** A complete job: a control file and a data file, each acknowledged. *)
Definition complete_job : list ascii :=
  subcommand 2 "18 cfA001host"
    (B "Hhost" ++ [LF] ++ B "Puser" ++ [LF] ++ B "Jtest" ++ [LF]) 0
  ++ subcommand 3 "5 dfA001host" (B "hello") 0.

(** ** Bookkeeping of the job files *)

(** [k] is one of the names held in [filenames]. *)
Definition recorded (v : locals) (k : name) : Prop :=
  filenames0 v = Some k \/ filenames1 v = Some k.

(** The current directory is the directory [fs0] the session found, plus
    one new file for every name held in [filenames]. *)
Definition tracked (fs0 : gmap (list ascii) node) (v : locals) (w : world) : Prop :=
  forall k,
    (recorded v k ->
       fs0 !! k = None /\ exists mode data, cwd w !! k = Some (Reg mode data))
    /\ (~ recorded v k -> cwd w !! k = fs0 !! k).

(** The entry of [filenames] a subcommand byte selects (line 229). *)
Definition slot (s0 : Z) (v : locals) : option name :=
  if s0 - 2 =? 0 then filenames0 v else filenames1 v.

(** ** Further notions and sample data *)

(** From [w] to [w'] the peer was sent further events, none of them [e]. *)
Definition quiet_about (e : event) (w w' : world) : Prop :=
  exists evs, stdout w' = stdout w ++ evs /\ ~ In e evs.

(** A queue name of which [sane] keeps nothing. *)
Definition dotted_job : list ascii := receive_job "../..".

(** A control file of exactly 16 KB is announced. *)
Definition ceiling_subcommand : list ascii :=
  byte 2 ++ B "16384 cfA001host" ++ [LF].

(** A data file announced with 5 bytes of which 3 arrive. *)
Definition short_transfer : list ascii :=
  byte 3 ++ B "5 dfA001host" ++ [LF] ++ B "abc".

(** * Properties *)

(** ** sane *)

Lemma sane_char_charset (c : ascii) : sane_char c = in_spec_charset c.
Proof.
  destruct c as [[] [] [] [] [] [] [] []]; vm_compute; reflexivity.
Qed.

Lemma sane_loop_filter (s written : list ascii) :
  sane_loop written s = written ++ List.filter sane_char (c_str s).
Proof.
  revert written; induction s as [|c s IH]; intros written; simpl.
  - by rewrite app_nil_r.
  - destruct (is_nul c) eqn:Hn; simpl.
    + by rewrite app_nil_r.
    + destruct (sane_char c); rewrite IH; [by rewrite <- app_assoc | done].
Qed.

Lemma sane_filter (s : list ascii) : sane s = List.filter sane_char (c_str s).
Proof. unfold sane. by rewrite sane_loop_filter. Qed.

Lemma sane_char_not_nul (c : ascii) : sane_char c = true -> is_nul c = false.
Proof.
  destruct c as [[] [] [] [] [] [] [] []]; vm_compute; congruence.
Qed.

Lemma c_str_filter_sane (s : list ascii) :
  c_str (List.filter sane_char s) = List.filter sane_char s.
Proof.
  induction s as [|c s IH]; simpl; [done|].
  destruct (sane_char c) eqn:Hc; [|done].
  simpl. by rewrite (sane_char_not_nul c Hc), IH.
Qed.

Lemma filter_filter_sane (s : list ascii) :
  List.filter sane_char (List.filter sane_char s) = List.filter sane_char s.
Proof.
  induction s as [|c s IH]; simpl; [done|].
  destruct (sane_char c) eqn:Hc; simpl; [by rewrite Hc, IH | done].
Qed.

(** C7: for every input string, [sane] returns the string with exactly the
    characters outside [A-Za-z0-9_-] removed and the others in their order;
    the result holds only characters of that set; [sane] is idempotent.  The
    input string is what the pointer denotes, the bytes up to the NUL. *)
Theorem sane_filters_charset (str : list ascii) :
  sane str = List.filter in_spec_charset (c_str str)
  /\ (forall c, In c (sane str) -> In c spec_charset)
  /\ sane (sane str) = sane str.
Proof.
  split; [|split].
  - rewrite sane_filter. apply List.filter_ext. intros c. apply sane_char_charset.
  - intros c Hc. rewrite sane_filter in Hc. apply List.filter_In in Hc as [_ Hc].
    rewrite sane_char_charset in Hc. unfold in_spec_charset in Hc.
    apply List.existsb_exists in Hc as (d & Hd & Heq).
    apply Ascii.eqb_eq in Heq. by subst.
  - rewrite (sane_filter (sane str)), (sane_filter str), c_str_filter_sane.
    apply filter_filter_sane.
Qed.

(** ** exec_helper *)

Lemma set_env_same (w : world) : set_env (env w) w = w.
Proof. by destruct w. Qed.

Lemma strchr_spec_lines (q cur : list ascii) :
  match strchr LF q with
  | Some (line, p) =>
      spec_lines cur q = (cur ++ line) :: spec_lines [] p
      /\ (length p < length q)%nat
  | None => spec_lines cur q = []
  end.
Proof.
  revert cur; induction q as [|c q IH]; intros cur; simpl; [done|].
  destruct (is_char c LF) eqn:Hc.
  - rewrite app_nil_r. split; [done | lia].
  - specialize (IH (cur ++ [c])).
    destruct (strchr LF q) as [[line p]|]; [|done].
    destruct IH as [-> Hlen]. rewrite <- app_assoc. split; [done | lia].
Qed.

Lemma setenv_lines_spec (fuel : nat) : forall (q : list ascii) (w : world),
  (length q <= fuel)%nat ->
  setenv_lines fuel q w
  = set_env (bind_all (spec_directives (spec_lines [] q)) (env w)) w.
Proof.
  induction fuel as [|fuel IH]; intros q w Hlen.
  - destruct q; [|simpl in Hlen; lia]. simpl. by rewrite set_env_same.
  - simpl. pose proof (strchr_spec_lines q []) as Hq.
    destruct (strchr LF q) as [[line p]|].
    + destruct Hq as [-> Hp].
      destruct line as [|var value]; cbn; [by rewrite set_env_same|].
      destruct (isalpha var); cbn; [|by rewrite set_env_same].
      rewrite IH by lia. by destruct w.
    + rewrite Hq. cbn. by rewrite set_env_same.
Qed.

(** C6: when the helper is invoked, the whole control file is read and then
    deleted, DATAFILE is bound to the name the data file is stored under,
    and the content is scanned line by line: while the first character of a
    line is a letter, the line binds that character to the rest of the line
    up to the newline; the scan stops at the first line failing the test.
    The content is scanned as a C string, and only text ended by a newline
    is a line. *)
Theorem exec_helper_bindings (v : locals) (argv : list name) (w : world)
    (ctrlfile datafile : name) (mode : Z) (content : list ascii) :
  filenames0 v = Some ctrlfile ->
  filenames1 v = Some datafile ->
  cwd w !! ctrlfile = Some (Reg mode content) ->
  exec_helper v argv w
  = Exec argv
      (World (stdin w) (stdout w)
         (delete ctrlfile (cwd w))
         (bind_all (spec_directives (spec_lines [] (c_str content)))
                   (<[DATAFILE := datafile]> (env w)))).
Proof.
  intros H0 H1 Hfile. unfold exec_helper, xmalloc_open_read_close.
  rewrite H0, H1, Hfile. rewrite setenv_lines_spec by done.
  unfold unlink. rewrite Hfile. by destruct w.
Qed.

Lemma exec_helper_bindings_witness :
  exec_helper (Locals 6 0 (Some (B "cfA")) (Some (B "dfA")) (B "q")) [B "helper"]
    (World [] [] (<[B "cfA" := Reg 384 sample_ctrl]> (<[B "dfA" := Reg 384 (B "data")]> ∅)) ∅)
  = Exec [B "helper"]
      (World [] [] (<[B "dfA" := Reg 384 (B "data")]> ∅)
         (<[B "J" := B "test"]> (<[B "P" := B "user"]> (<[B "H" := B "host"]>
            (<[B "DATAFILE" := B "dfA"]> ∅))))).
Proof.
  rewrite (exec_helper_bindings _ _ _ (B "cfA") (B "dfA") 384 sample_ctrl);
    [| reflexivity | reflexivity | vm_compute; reflexivity].
  vm_compute. reflexivity.
Defined.

(** Boolean tests of the code as propositions. *)
Ltac unbool :=
  repeat match goal with
  | H : negb _ = true |- _ => apply negb_true_iff in H
  | H : negb _ = false |- _ => apply negb_false_iff in H
  | H : (_ && _)%bool = true |- _ => apply andb_true_iff in H as [? ?]
  | H : (_ || _)%bool = false |- _ => apply orb_false_iff in H as [? ?]
  | H : (_ && _)%bool = false |- _ => apply andb_false_iff in H as [H|H]
  | H : (_ || _)%bool = true |- _ => apply orb_true_iff in H as [H|H]
  | H : (_ =? _)%Z = true |- _ => apply Z.eqb_eq in H
  | H : (_ =? _)%Z = false |- _ => apply Z.eqb_neq in H
  | H : (_ <? _)%Z = true |- _ => apply Z.ltb_lt in H
  | H : (_ <? _)%Z = false |- _ => apply Z.ltb_ge in H
  end.

(** ** The library calls *)

Lemma read_line_split (n : nat) : forall (i chunk rest : list ascii),
  read_line n i = (chunk, rest) -> i = chunk ++ rest.
Proof.
  induction n as [|n IH]; intros i chunk rest H; simpl in H.
  - by simplify_eq.
  - destruct i as [|c i]; [by simplify_eq|].
    destruct (is_char c LF); [by simplify_eq|].
    destruct (read_line n i) as [chunk' rest'] eqn:Hr. simplify_eq.
    simpl. f_equal. by apply IH.
Qed.

Lemma read_line_nonempty (n : nat) (c : ascii) (i chunk rest : list ascii) :
  read_line (S n) (c :: i) = (chunk, rest) -> hd NUL chunk = c /\ chunk <> [].
Proof.
  simpl. destruct (is_char c LF); [intros; by simplify_eq|].
  destruct (read_line n i). intros; by simplify_eq.
Qed.

Lemma xmalloc_read_stdin_Some (w w1 : world) (s : list ascii) :
  xmalloc_read_stdin w = Some (s, w1) ->
  stdin w = s ++ stdin w1 /\ hd NUL s = hd NUL (stdin w) /\ s <> []
  /\ w1 = set_stdin (stdin w1) w.
Proof.
  unfold xmalloc_read_stdin. destruct (stdin w) as [|c i] eqn:Hi; [done|].
  destruct (read_line 4096 (c :: i)) as [chunk rest] eqn:Hr. intros ?; simplify_eq.
  pose proof (read_line_split _ _ _ _ Hr) as Hsplit.
  pose proof (read_line_nonempty _ _ _ _ _ Hr) as [Hhd Hne].
  simpl. by rewrite Hsplit.
Qed.

Lemma xmalloc_read_stdin_shorter (w w1 : world) (s : list ascii) :
  xmalloc_read_stdin w = Some (s, w1) ->
  (length (stdin w1) < length (stdin w))%nat.
Proof.
  intros H. apply xmalloc_read_stdin_Some in H as (-> & _ & Hne & _).
  rewrite length_app. destruct s; [done | simpl; lia].
Qed.

Lemma to_int_range (v : Z) : int_range (to_int v).
Proof.
  unfold to_int, int_range, INT_MAX.
  pose proof (Z.mod_pos_bound v (2 ^ 32) ltac:(lia)).
  cbv zeta. destruct (Z.leb_spec (v mod 2 ^ 32) (2 ^ 31 - 1)); lia.
Qed.

Lemma to_int_id (x : Z) : int_range x -> to_int x = x.
Proof.
  unfold to_int, int_range, INT_MAX. intros H. cbv zeta.
  destruct (Z_lt_le_dec x 0).
  - replace (x mod 2 ^ 32) with (x + 2 ^ 32).
    + destruct (Z.leb_spec (x + 2 ^ 32) (2 ^ 31 - 1)); lia.
    + apply (Z.mod_unique_pos _ _ (-1)); lia.
  - rewrite Z.mod_small by lia.
    destruct (Z.leb_spec x (2 ^ 31 - 1)); lia.
Qed.

(** ** The stretches of the loop body *)

(** What [read_subcmd] has established when control falls through. *)
Lemma read_subcmd_Go (v v1 : locals) (w w1 : world) (s0 len : Z) (fname : name) :
  read_subcmd v w = Go (s0, len, fname, v1, w1) ->
  (exists s, xmalloc_read_stdin (put Ack w) = Some (s, w1)
             /\ s0 = byte_val (hd NUL s))
  /\ (s0 = 2 \/ s0 = 3)
  /\ Z.land (seen v) (s0 - 1) = 0
  /\ v1 = set_seen 0 v
  /\ 0 <= len <= INT_MAX
  /\ (s0 = 2 -> len <= 16 * 1024).
Proof.
  unfold read_subcmd. intros H.
  destruct (xmalloc_read_stdin (put Ack w)) as [[s w']|] eqn:Hread;
    [|by destruct (negb (spooling v =? 0))].
  repeat case_match; simplify_eq.
  pose proof (to_int_range z) as Hr. unfold int_range in Hr.
  unbool; subst; split_and!; eauto; try lia.
  all: match goal with H : Z.land _ _ = 0 |- _ => by rewrite H end.
Qed.

Lemma set_filename_fields (i : Z) (fname : name) (v : locals) :
  spooling (set_filename i fname v) = spooling v
  /\ seen (set_filename i fname v) = seen v
  /\ queue (set_filename i fname v) = queue v.
Proof. unfold set_filename. by destruct (i =? 0). Qed.

Lemma open_dest_Go (s0 : Z) (fname : name) (v v2 : locals) (w w2 : world) (fd : fd_t) :
  open_dest s0 fname v w = Go (fd, v2, w2) ->
  stdin w2 = stdin w /\ stdout w2 = stdout w /\ env w2 = env w
  /\ spooling v2 = spooling v /\ seen v2 = seen v /\ queue v2 = queue v
  /\ ((spooling v <> 0 /\ fd = Some (sane fname) /\ sane fname <> []
       /\ cwd w !! sane fname = None
       /\ cwd w2 = <[sane fname := Reg 128 []]> (cwd w)
       /\ v2 = set_filename (s0 - 2) (sane fname) v)
      \/ (spooling v = 0 /\ v2 = v /\ w2 = w
          /\ ((s0 = 3 /\ fd = Some (queue v)
               /\ exists mode data, cwd w !! queue v = Some (Reg mode data))
              \/ (s0 <> 3 /\ fd = None)))).
Proof.
  unfold open_dest, open3_or_warn, xopen. intros H.
  repeat case_match; simplify_eq; unbool; simpl; split_and!; try done.
  all: try apply set_filename_fields.
  all: first [ left; by split_and!
             | right; split_and!; try done;
               first [ left; by eauto | by right ] ].
Qed.

Lemma write_fd_stdin (fd : fd_t) (bytes : list ascii) (w : world) :
  stdin (write_fd fd bytes w) = stdin w
  /\ stdout (write_fd fd bytes w) = stdout w
  /\ env (write_fd fd bytes w) = env w.
Proof. by destruct fd. Qed.

(** The three ways [transfer] goes, for a declared length [len] that is not
    negative: the stream is shorter than declared; the acknowledgement is
    missing or not zero; all is well. *)
Lemma transfer_short (fd : fd_t) (len : Z) (v : locals) (w : world) :
  0 <= len -> (Z.of_nat (length (stdin w)) < len) ->
  transfer fd len v w
  = ErrExit v (put (ExpectedButGot len (Z.of_nat (length (stdin w))))
                   (write_fd fd (stdin w) (set_stdin [] w))).
Proof.
  intros H0 Hshort. unfold transfer, bb_copyfd_size.
  rewrite take_ge, drop_ge by lia.
  destruct (Z.eqb_spec (Z.of_nat (length (stdin w))) len); [lia | done].
Qed.

Lemma transfer_full (fd : fd_t) (len : Z) (v : locals) (w : world) :
  0 <= len -> (len <= Z.of_nat (length (stdin w))) ->
  let n := Z.to_nat len in
  let w1 := write_fd fd (take n (stdin w)) (set_stdin (drop n (stdin w)) w) in
  transfer fd len v w
  = match drop n (stdin w) with
    | [] => ErrExit v w1
    | c :: rest =>
        if byte_val c =? 0 then Go (0, set_stdin rest w1)
        else ErrExit v (set_stdin rest w1)
    end.
Proof.
  intros H0 Hfull n w1. unfold transfer, bb_copyfd_size. fold n. fold w1.
  rewrite length_take, Nat.min_l by lia.
  replace (Z.of_nat n =? len) with true by (symmetry; apply Z.eqb_eq; lia).
  simpl. unfold safe_read1.
  destruct (write_fd_stdin fd (take n (stdin w)) (set_stdin (drop n (stdin w)) w))
    as (Hs & _ & _). fold w1 in Hs. rewrite Hs. simpl.
  destruct (drop n (stdin w)) as [|c rest]; [done|].
  destruct (Z.eqb_spec (byte_val c) 0) as [->|]; done.
Qed.

Lemma transfer_Go (fd : fd_t) (len s0 : Z) (v : locals) (w w' : world) :
  0 <= len ->
  transfer fd len v w = Go (s0, w') ->
  s0 = 0
  /\ (length (stdin w') < length (stdin w))%nat
  /\ stdout w' = stdout w /\ env w' = env w
  /\ cwd w' = cwd (write_fd fd (take (Z.to_nat len) (stdin w)) w)
  /\ stdin w' = drop (S (Z.to_nat len)) (stdin w)
  /\ (Z.to_nat len < length (stdin w))%nat.
Proof.
  intros H0 H.
  destruct (Z_lt_le_dec (Z.of_nat (length (stdin w))) len) as [Hs|Hf].
  - by rewrite transfer_short in H.
  - rewrite transfer_full in H by done.
    destruct (drop (Z.to_nat len) (stdin w)) as [|c rest] eqn:Hd; [done|].
    destruct (byte_val c =? 0); [|done]. simplify_eq.
    assert (Hlen : length (drop (Z.to_nat len) (stdin w)) = S (length rest))
      by (by rewrite Hd).
    rewrite length_drop in Hlen.
    assert (Hrest : rest = drop (S (Z.to_nat len)) (stdin w)).
    { replace (S (Z.to_nat len)) with (Z.to_nat len + 1)%nat by lia.
      rewrite <- drop_drop. by rewrite Hd. }
    destruct fd; simpl; split_and!; try done; lia.
Qed.

Lemma set_spooling_same (v : locals) : set_spooling (spooling v) v = v.
Proof. by destruct v. Qed.

(** With the acknowledgement in [s[0]], line 258 adds nothing. *)
Lemma commit_zero (argv : list name) (fd : fd_t) (v : locals) (w : world) :
  int_range (spooling v) -> spooling v <> 6 ->
  commit argv fd 0 v w
  = Go (v, if spooling v =? 0 then w else fchmod fd 384 w).
Proof.
  intros Hr H6. unfold commit. rewrite Z.add_0_r, to_int_id, set_spooling_same by done.
  destruct (Z.eqb_spec (spooling v) 0) as [He|Hne]; simpl.
  - destruct argv; [done|]. by destruct (Z.eqb_spec (spooling v) 6).
  - destruct argv; [done|]. by destruct (Z.eqb_spec (spooling v) 6).
Qed.

(** One turn of the loop, stretch by stretch. *)
Lemma lpd_iter_unfold (argv : list name) (v : locals) (w : world) :
  lpd_iter argv v w
  = match read_subcmd v w with
    | Go (s0, len, fname, v1, w1) =>
        match open_dest s0 fname v1 w1 with
        | Go (fd, v2, w2) =>
            match transfer fd len v2 w2 with
            | Go (a, w3) => commit argv fd a v2 w3
            | ErrExit v' w' => ErrExit v' w'
            | Leave o => Leave o
            end
        | ErrExit v' w' => ErrExit v' w'
        | Leave o => Leave o
        end
    | ErrExit v' w' => ErrExit v' w'
    | Leave o => Leave o
    end.
Proof.
  unfold lpd_iter.
  destruct (read_subcmd v w) as [[[[[s0 len] fname] v1] w1]| |]; [|done..].
  cbn. destruct (open_dest s0 fname v1 w1) as [[[fd v2] w2]| |]; [|done..].
  cbn. by destruct (transfer fd len v2 w2) as [[a w3]| |].
Qed.

Lemma read_subcmd_Leave (v : locals) (w : world) (o : outcome) :
  read_subcmd v w = Leave o ->
  o = Returned EXIT_SUCCESS (put Ack w) /\ stdin w = [] /\ spooling v = 0.
Proof.
  unfold read_subcmd, xmalloc_read_stdin. intros H.
  repeat case_match; simplify_eq; unbool. simpl in *. done.
Qed.

Lemma read_subcmd_ErrExit (v v' : locals) (w w' : world) :
  read_subcmd v w = ErrExit v' w' ->
  spooling v' = spooling v /\ filenames0 v' = filenames0 v
  /\ filenames1 v' = filenames1 v /\ cwd w' = cwd w /\ queue v' = queue v.
Proof.
  unfold read_subcmd, xmalloc_read_stdin. intros H.
  repeat case_match; simplify_eq; done.
Qed.

Lemma open_dest_Leave (s0 : Z) (fname : name) (v : locals) (w : world) (o : outcome) :
  open_dest s0 fname v w = Leave o ->
  o = Died (put (CannotOpen (queue v)) w) /\ spooling v = 0.
Proof.
  unfold open_dest. intros H. repeat case_match; simplify_eq; unbool. done.
Qed.

Lemma open_dest_ErrExit (s0 : Z) (fname : name) (v v' : locals) (w w' : world) :
  open_dest s0 fname v w = ErrExit v' w' ->
  v' = v /\ cwd w' = cwd w /\ spooling v <> 0.
Proof.
  unfold open_dest. intros H. repeat case_match; simplify_eq; unbool. done.
Qed.

Lemma transfer_not_Leave (fd : fd_t) (len : Z) (v : locals) (w : world) (o : outcome) :
  transfer fd len v w <> Leave o.
Proof.
  unfold transfer. destruct (bb_copyfd_size fd len w). repeat case_match; done.
Qed.

Lemma transfer_ErrExit (fd : fd_t) (len : Z) (v v' : locals) (w w' : world) :
  transfer fd len v w = ErrExit v' w' ->
  v' = v /\ exists bytes, cwd w' = cwd (write_fd fd bytes w).
Proof.
  unfold transfer, bb_copyfd_size, safe_read1. intros H.
  repeat case_match; simplify_eq; (split; [done|]);
    exists (take (Z.to_nat len) (stdin w)); by destruct fd.
Qed.

Lemma commit_cases (argv : list name) (fd : fd_t) (a : Z) (v : locals) (w : world) :
  let v' := if spooling v =? 0 then v
            else set_spooling (to_int (spooling v + a)) v in
  let w' := if spooling v =? 0 then w else fchmod fd 384 w in
  (commit argv fd a v w = Go (v', w') /\ (argv = [] \/ spooling v' <> 6))
  \/ (commit argv fd a v w = Leave (exec_helper v' argv (put Ack w'))
      /\ argv <> [] /\ spooling v' = 6).
Proof.
  unfold commit. destruct (Z.eqb_spec (spooling v) 0) as [He|Hne]; simpl.
  - destruct argv; [left; by eauto|].
    destruct (Z.eqb_spec (spooling v) 6); [right | left]; by eauto.
  - destruct argv; [left; by eauto|].
    destruct (Z.eqb_spec (to_int (spooling v + a)) 6); [right | left]; by eauto.
Qed.

Lemma exec_helper_result (v : locals) (argv : list name) (w : world) :
  exec_helper v argv w = Fault \/ exists w', exec_helper v argv w = Exec argv w'.
Proof. unfold exec_helper. repeat case_match; eauto. Qed.

(** ** The loop *)

(** What a turn of the loop that falls through has done to the locals and
    to the input. *)
Lemma lpd_iter_Go (argv : list name) (v v' : locals) (w w' : world) :
  int_range (spooling v) ->
  lpd_iter argv v w = Go (v', w') ->
  spooling v' = spooling v /\ queue v' = queue v /\ seen v' = 0
  /\ (length (stdin w') < length (stdin w))%nat
  /\ env w' = env w.
Proof.
  intros Hr. rewrite lpd_iter_unfold.
  destruct (read_subcmd v w) as [[[[[s0 len] fname] v1] w1]| |] eqn:Hread; [|done..].
  apply read_subcmd_Go in Hread as ((s & Hs & _) & _ & _ & -> & Hlen & _).
  destruct (open_dest s0 fname (set_seen 0 v) w1) as [[[fd v2] w2]| |] eqn:Hopen;
    [|done..].
  apply open_dest_Go in Hopen as (Hi & _ & He & Hsp & Hse & Hq & _).
  destruct (transfer fd len v2 w2) as [[a w3]| |] eqn:Htr; [|done..].
  apply transfer_Go in Htr as (-> & Hi3 & _ & He3 & _); [|lia].
  apply xmalloc_read_stdin_shorter in Hs as Hshort.
  apply xmalloc_read_stdin_Some in Hs as (_ & _ & _ & Hw1).
  assert (He1 : env w1 = env w) by (by rewrite Hw1).
  simpl in *.
  destruct (commit_cases argv fd 0 v2 w3) as [[Hc _]|[Hc _]];
    rewrite Hc; [|done]. intros ?; simplify_eq.
  assert (Hsame : (if spooling v2 =? 0 then v2
                   else set_spooling (to_int (spooling v2 + 0)) v2) = v2).
  { destruct (spooling v2 =? 0); [done|].
    rewrite Z.add_0_r, to_int_id, set_spooling_same; [done|]. by rewrite Hsp. }
  rewrite Hsame.
  assert (Hw : stdin (if spooling v2 =? 0 then w3 else fchmod fd 384 w3) = stdin w3
               /\ env (if spooling v2 =? 0 then w3 else fchmod fd 384 w3) = env w3).
  { destruct (spooling v2 =? 0); [done|]. by destruct fd. }
  destruct Hw as [-> ->]. rewrite Hi in Hi3.
  split_and!; try done; try lia; congruence.
Qed.

(** How a turn of the loop can end the process. *)
Lemma lpd_iter_Leave (argv : list name) (v : locals) (w : world) (o : outcome) :
  lpd_iter argv v w = Leave o ->
  (o = Returned EXIT_SUCCESS (put Ack w) /\ stdin w = [] /\ spooling v = 0)
  \/ (exists w', o = Died w' /\ spooling v = 0 /\ cwd w' = cwd w)
  \/ (exists v' w', o = exec_helper v' argv w' /\ argv <> []
        /\ spooling v <> 0 /\ to_int (spooling v) = 6).
Proof.
  rewrite lpd_iter_unfold.
  destruct (read_subcmd v w) as [[[[[s0 len] fname] v1] w1]| |] eqn:Hread; [|done|].
  2:{ intros ?; simplify_eq. left. by apply read_subcmd_Leave. }
  apply read_subcmd_Go in Hread as ((s & Hs & _) & _ & _ & -> & Hlen & _).
  apply xmalloc_read_stdin_Some in Hs as (_ & _ & _ & Hw1).
  destruct (open_dest s0 fname (set_seen 0 v) w1) as [[[fd v2] w2]| |] eqn:Hopen;
    [|done|].
  2:{ intros ?; simplify_eq. right; left.
      apply open_dest_Leave in Hopen as [-> Hsp]. eexists; split_and!; try done.
      by rewrite Hw1. }
  apply open_dest_Go in Hopen as (_ & _ & _ & Hsp & _).
  destruct (transfer fd len v2 w2) as [[a w3]| |] eqn:Htr; [|done|].
  2:{ by apply transfer_not_Leave in Htr. }
  apply transfer_Go in Htr as (-> & _); [|lia].
  destruct (commit_cases argv fd 0 v2 w3) as [[Hc _]|(Hc & Hargv & H6)];
    rewrite Hc; [done|].
  intros ?; simplify_eq. right; right. do 2 eexists. split; [done|].
  simpl in Hsp. rewrite Hsp in H6.
  destruct (Z.eqb_spec (spooling v) 0) as [He|Hne].
  - rewrite Hsp in H6. simpl in *. lia.
  - simpl in H6. by rewrite Z.add_0_r in H6.
Qed.

Lemma lpd_iter_ErrExit (argv : list name) (v v' : locals) (w w' : world) :
  lpd_iter argv v w = ErrExit v' w' -> spooling v' = spooling v.
Proof.
  rewrite lpd_iter_unfold.
  destruct (read_subcmd v w) as [[[[[s0 len] fname] v1] w1]| |] eqn:Hread; [| |done].
  2:{ intros ?; simplify_eq. by apply read_subcmd_ErrExit in Hread as (? & _). }
  apply read_subcmd_Go in Hread as (_ & _ & _ & -> & Hlen & _).
  destruct (open_dest s0 fname (set_seen 0 v) w1) as [[[fd v2] w2]| |] eqn:Hopen;
    [| |done].
  2:{ intros ?; simplify_eq. by apply open_dest_ErrExit in Hopen as (-> & _). }
  apply open_dest_Go in Hopen as (_ & _ & _ & Hsp & _).
  destruct (transfer fd len v2 w2) as [[a w3]| |] eqn:Htr; [| |done].
  2:{ intros ?; simplify_eq. by apply transfer_ErrExit in Htr as (-> & _). }
  apply transfer_Go in Htr as (-> & _); [|lia].
  by destruct (commit_cases argv fd 0 v2 w3) as [[Hc _]|(Hc & _)]; rewrite Hc.
Qed.

(** The loop ends: the fuel [lpd_main] provides is never used up. *)
Lemma lpd_loop_terminates (argv : list name) (fuel : nat) :
  forall (v : locals) (w : world),
  int_range (spooling v) -> (length (stdin w) < fuel)%nat ->
  lpd_loop fuel argv v w <> OutOfFuel.
Proof.
  induction fuel as [|fuel IH]; intros v w Hr Hlen; [lia|]. simpl.
  destruct (lpd_iter argv v w) as [[v' w']|v' w'|o] eqn:Hit.
  - apply lpd_iter_Go in Hit as (Hsp & _ & _ & Hshort & _); [|done].
    apply IH; [by rewrite Hsp | lia].
  - done.
  - apply lpd_iter_Leave in Hit as [(-> & _)|[(w' & -> & _)|(v' & w' & -> & _)]];
      try done.
    by destruct (exec_helper_result v' argv w') as [->|[w'' ->]].
Qed.

(** The loop is entered with [spooling] 0 or 1 and an empty [seen]. *)
Lemma lpd_start_Go (spooling0 : Z) (w w1 : world) (v : locals) :
  lpd_start spooling0 w = Go (v, w1) ->
  (spooling v = 0 \/ spooling v = 1) /\ seen v = 0
  /\ filenames0 v = None /\ filenames1 v = None
  /\ (spooling v = 0 -> cwd w1 = cwd w)
  /\ (spooling v = 1 -> cwd w !! queue v = Some (Dir (cwd w1))).
Proof.
  unfold lpd_start, chdir. intros H.
  repeat case_match; simplify_eq; simpl; split_and!; eauto; try done; try lia.
  all: match goal with H : xmalloc_read_stdin _ = Some _ |- _ =>
         apply xmalloc_read_stdin_Some in H as (_ & _ & _ & Hw) end.
  all: intros _; rewrite Hw in *; simpl in *; done.
Qed.

Lemma lpd_start_Leave (spooling0 : Z) (w : world) (o : outcome) :
  lpd_start spooling0 w = Leave o ->
  o = Fault \/ exists w', o = Returned EXIT_FAILURE w'.
Proof.
  unfold lpd_start. intros H. repeat case_match; simplify_eq; eauto.
Qed.

Lemma lpd_main_terminates (spooling0 : Z) (argv : list name) (w : world) :
  lpd_main spooling0 argv w <> OutOfFuel.
Proof.
  unfold lpd_main. destruct (lpd_start spooling0 w) as [[v w1]|v w1|o] eqn:Hs.
  - apply lpd_start_Go in Hs as (Hsp & _).
    apply lpd_loop_terminates; [unfold int_range, INT_MAX; lia | lia].
  - done.
  - by apply lpd_start_Leave in Hs as [->|[w' ->]].
Qed.

(** In this program [spooling] never changes inside the loop, so a loop
    entered with a value other than 6 never reaches line 268. *)
Lemma lpd_loop_never_exec (argv : list name) (fuel : nat) :
  forall (v : locals) (w : world),
  int_range (spooling v) -> spooling v <> 6 ->
  is_exec (lpd_loop fuel argv v w) = false.
Proof.
  induction fuel as [|fuel IH]; intros v w Hr H6; [done|]. simpl.
  destruct (lpd_iter argv v w) as [[v' w']|v' w'|o] eqn:Hit.
  - apply lpd_iter_Go in Hit as (Hsp & _); [|done]. apply IH; by rewrite Hsp.
  - done.
  - apply lpd_iter_Leave in Hit
      as [(-> & _)|[(w' & -> & _)|(v' & w' & -> & _ & _ & Hs)]]; try done.
    by rewrite to_int_id in Hs.
Qed.

Lemma lpd_main_never_exec (spooling0 : Z) (argv : list name) (w : world) :
  is_exec (lpd_main spooling0 argv w) = false.
Proof.
  unfold lpd_main. destruct (lpd_start spooling0 w) as [[v w1]|v w1|o] eqn:Hs.
  - apply lpd_start_Go in Hs as (Hsp & _).
    apply lpd_loop_never_exec; [unfold int_range, INT_MAX; lia | lia].
  - done.
  - by apply lpd_start_Leave in Hs as [->|[w' ->]].
Qed.

(** ** Exit statuses *)

Lemma err_exit_status (v : locals) (w : world) :
  exists w', err_exit v w = Returned EXIT_FAILURE w'.
Proof. unfold err_exit. eauto. Qed.

Lemma lpd_loop_eof (argv : list name) (fuel : nat) (v : locals) (w : world) :
  stdin w = [] ->
  lpd_loop (S fuel) argv v w
  = if spooling v =? 0 then Returned EXIT_SUCCESS (put Ack w)
    else err_exit v (put Ack w).
Proof.
  intros Hin. simpl. rewrite lpd_iter_unfold.
  unfold read_subcmd, xmalloc_read_stdin. simpl. rewrite Hin.
  by destruct (spooling v =? 0).
Qed.

Lemma lpd_loop_success (argv : list name) (fuel : nat) :
  forall (v : locals) (w : world) (status : Z),
  int_range (spooling v) ->
  exit_status (lpd_loop fuel argv v w) = Some status ->
  status = EXIT_FAILURE
  \/ (status = EXIT_SUCCESS /\ spooling v = 0
      /\ exists w', lpd_loop fuel argv v w = Returned EXIT_SUCCESS w' /\ stdin w' = []).
Proof.
  induction fuel as [|fuel IH]; intros v w status Hr; [done|]. simpl.
  destruct (lpd_iter argv v w) as [[v' w']|v' w'|o] eqn:Hit.
  - apply lpd_iter_Go in Hit as (Hsp & _); [|done].
    intros Hst. apply IH in Hst; [|by rewrite Hsp].
    rewrite Hsp in Hst. done.
  - destruct (err_exit_status v' w') as [w'' ->]. simpl. intros ?; simplify_eq. by left.
  - apply lpd_iter_Leave in Hit
      as [(-> & Hin & Hsp)|[(w' & -> & _)|(v' & w' & -> & _)]]; simpl.
    + intros ?; simplify_eq. right. split_and!; try done. by eexists.
    + intros ?; simplify_eq. by left.
    + by destruct (exec_helper_result v' argv w') as [->|[w'' ->]].
Qed.

(** [lpd_main] exits with 1 unless the queue is a sink and the command
    stream has ended. *)
Lemma lpd_main_status (spooling0 : Z) (argv : list name) (w : world) (status : Z) :
  exit_status (lpd_main spooling0 argv w) = Some status ->
  status = EXIT_FAILURE
  \/ (status = EXIT_SUCCESS
      /\ exists v w1 w', lpd_start spooling0 w = Go (v, w1) /\ spooling v = 0
           /\ lpd_main spooling0 argv w = Returned EXIT_SUCCESS w' /\ stdin w' = []).
Proof.
  unfold lpd_main. destruct (lpd_start spooling0 w) as [[v w1]|v w1|o] eqn:Hs.
  - intros Hst. apply lpd_start_Go in Hs as (Hsp & _).
    apply lpd_loop_success in Hst as [->|(-> & H0 & w' & Hl & Hin)];
      [by left | | unfold int_range, INT_MAX; lia].
    right. split; [done|]. by exists v, w1, w'.
  - destruct (err_exit_status v w1) as [w' ->]. simpl. intros ?; simplify_eq. by left.
  - apply lpd_start_Leave in Hs as [->|[w' ->]]; simpl; [done|].
    intros ?; simplify_eq. by left.
Qed.

(** The exit statuses of the paths the code has: at the end of the command
    stream the loop returns failure (1) in spooling mode and success (0) in
    sink mode; every jump to the error exit returns failure; and the
    process exits with 1 unless it exits with 0 at the end of the stream in
    sink mode, also when the whole of [lpd_main] is run.  Which sessions
    jump to the error exit is another matter: see
    [repeated_data_in_sink_mode_returns_success]. *)
Theorem exit_status_of_session (argv : list name) (fuel : nat) (v : locals) (w : world) :
  int_range (spooling v) ->
  (stdin w = [] -> spooling v <> 0 ->
     exists w', lpd_loop (S fuel) argv v w = Returned EXIT_FAILURE w')
  /\ (stdin w = [] -> spooling v = 0 ->
     lpd_loop (S fuel) argv v w = Returned EXIT_SUCCESS (put Ack w))
  /\ (forall v' w', lpd_iter argv v w = ErrExit v' w' ->
     exists w'', lpd_loop (S fuel) argv v w = Returned EXIT_FAILURE w'')
  /\ (forall status, exit_status (lpd_loop (S fuel) argv v w) = Some status ->
     status = EXIT_FAILURE
     \/ (status = EXIT_SUCCESS /\ spooling v = 0
         /\ exists w', lpd_loop (S fuel) argv v w = Returned EXIT_SUCCESS w'
                       /\ stdin w' = []))
  /\ (forall spooling0 w0 status,
     exit_status (lpd_main spooling0 argv w0) = Some status ->
     status = EXIT_FAILURE
     \/ (status = EXIT_SUCCESS
         /\ exists v0 w1 w',
              lpd_start spooling0 w0 = Go (v0, w1) /\ spooling v0 = 0
              /\ lpd_main spooling0 argv w0 = Returned EXIT_SUCCESS w'
              /\ stdin w' = [])).
Proof.
  intros Hr. split_and!.
  - intros Hin Hsp. rewrite lpd_loop_eof by done.
    destruct (Z.eqb_spec (spooling v) 0); [done|]. apply err_exit_status.
  - intros Hin Hsp. rewrite lpd_loop_eof by done. by rewrite Hsp.
  - intros v' w' Hit. simpl. rewrite Hit. apply err_exit_status.
  - intros status. by apply lpd_loop_success.
  - intros spooling0 w0 status. apply lpd_main_status.
Qed.

Lemma exit_status_of_session_witness :
  (exists w', lpd_loop 1 [] spooling_locals (queue_world []) = Returned EXIT_FAILURE w')
  /\ lpd_loop 1 [] (Locals 0 0 None None (B "lp0")) (sample_world [])
     = Returned EXIT_SUCCESS (put Ack (sample_world [])).
Proof.
  split.
  - apply (exit_status_of_session [] 0 spooling_locals (queue_world []));
      [unfold int_range, INT_MAX; simpl; lia | reflexivity | simpl; lia].
  - apply (exit_status_of_session [] 0 (Locals 0 0 None None (B "lp0")) (sample_world []));
      [unfold int_range, INT_MAX; simpl; lia | reflexivity | reflexivity].
Defined.

(** ** Declared lengths *)

Lemma isdigit_val (c : ascii) : isdigit c = true -> 0 <= byte_val c - 48 <= 9.
Proof. unfold isdigit, in_range. intros H. unbool. lia. Qed.

Lemma decimal_nonneg (s : list ascii) : forall acc n,
  0 <= acc -> decimal acc s = Some n -> 0 <= n.
Proof.
  induction s as [|c s IH]; intros acc n Hacc; simpl.
  - intros ?; by simplify_eq.
  - destruct (isdigit c) eqn:Hd; [|done]. apply isdigit_val in Hd.
    apply IH. lia.
Qed.

Lemma bb_strtou_ok (arg : list ascii) (n : Z) :
  bb_strtou arg = (n, false) -> 0 <= n <= UINT_MAX.
Proof.
  unfold bb_strtou. destruct arg as [|c arg]; [done|].
  destruct (decimal 0 (c :: arg)) as [v|] eqn:Hd; [|done].
  destruct (Z.leb_spec v UINT_MAX); [|done]. intros ?; simplify_eq.
  split; [|done]. by apply (decimal_nonneg (c :: arg) 0).
Qed.

(** What [read_subcmd] does with a subcommand whose byte is 2 or 3, that is
    not taken for a duplicate, and whose length field denotes [n]. *)
Lemma read_subcmd_length (v : locals) (w w1 : world) (s cmd_len fname : list ascii)
    (n : Z) :
  xmalloc_read_stdin (put Ack w) = Some (s, w1) ->
  byte_val (hd NUL s) = 2 \/ byte_val (hd NUL s) = 3 ->
  Z.land (seen v) (byte_val (hd NUL s) - 1) = 0 ->
  strchr SP (cut_at LF (c_str s)) = Some (cmd_len, fname) ->
  bb_strtou (tl cmd_len) = (n, false) ->
  read_subcmd v w
  = if INT_MAX <? n then ErrExit (set_seen 0 v) (put BadLength w1)
    else if (byte_val (hd NUL s) =? 2) && (16 * 1024 <? n)
    then ErrExit (set_seen 0 v) (put FileIsTooBig w1)
    else Go (byte_val (hd NUL s), n, fname, set_seen 0 v, w1).
Proof.
  intros Hread Hcmd Hseen Hsp Hnum. unfold read_subcmd.
  rewrite Hread. cbv zeta. rewrite Hseen, Hsp, Hnum.
  apply bb_strtou_ok in Hnum. unfold UINT_MAX in Hnum.
  replace (negb (byte_val (hd NUL s) =? 2) && negb (byte_val (hd NUL s) =? 3))
    with false by (destruct Hcmd as [-> | ->]; done).
  simpl. destruct (Z.ltb_spec INT_MAX n) as [Hbig|Hfit].
  - replace (to_int n <? 0) with true; [done|].
    symmetry. apply Z.ltb_lt. unfold to_int, INT_MAX in *. cbv zeta.
    rewrite Z.mod_small by lia.
    destruct (Z.leb_spec n (2 ^ 31 - 1)); lia.
  - rewrite to_int_id by (unfold int_range; lia).
    replace (n <? 0) with false by (symmetry; apply Z.ltb_ge; lia).
    done.
Qed.

Lemma unlink_opt_keeps (f : option name) (w : world) :
  stdin (unlink_opt f w) = stdin w /\ stdout (unlink_opt f w) = stdout w
  /\ env (unlink_opt f w) = env w.
Proof.
  destruct f as [f|]; [|done]. unfold unlink_opt, unlink. by repeat case_match.
Qed.

Lemma err_exit_keeps (v : locals) (w : world) :
  exists w', err_exit v w = Returned EXIT_FAILURE w'
             /\ stdin w' = stdin w /\ stdout w' = stdout w.
Proof.
  unfold err_exit. eexists. split; [done|].
  destruct (negb _); [|done].
  destruct (unlink_opt_keeps (filenames1 v) (unlink_opt (filenames0 v) w)) as (-> & -> & _).
  by destruct (unlink_opt_keeps (filenames0 v) w) as (-> & -> & _).
Qed.




(** ** File transfer *)

(** C4: once a subcommand is validated and its destination opened, the turn
    copies the declared number of bytes to the destination and then reads
    one acknowledgement byte.  If the stream holds fewer bytes than
    declared, the peer is told the expected and the actual count and the
    session is aborted; if the acknowledgement is missing or not zero the
    session is aborted; otherwise control reaches line 253 with exactly the
    declared bytes in the destination and exactly one more byte taken from
    the stream.  So a job file that reaches the test of line 264, the only
    way to the helper, has the declared length. *)
Theorem transfer_is_exact (argv : list name) (v v1 v2 : locals) (w w1 w2 : world)
    (s0 len : Z) (fname : name) (fd : fd_t) :
  read_subcmd v w = Go (s0, len, fname, v1, w1) ->
  open_dest s0 fname v1 w1 = Go (fd, v2, w2) ->
  let n := Z.to_nat len in
  let copied := write_fd fd (take n (stdin w2)) (set_stdin (drop n (stdin w2)) w2) in
  ((length (stdin w2) < n)%nat ->
     lpd_iter argv v w
     = ErrExit v2 (put (ExpectedButGot len (Z.of_nat (length (stdin w2)))) copied))
  /\ ((n <= length (stdin w2))%nat ->
      (forall c, stdin w2 !! n = Some c -> byte_val c <> 0) ->
      exists w', lpd_iter argv v w = ErrExit v2 w'
                 /\ stdout w' = stdout w2 /\ cwd w' = cwd copied)
  /\ (forall c, stdin w2 !! n = Some c -> byte_val c = 0 ->
      lpd_iter argv v w
      = commit argv fd 0 v2 (set_stdin (drop (S n) (stdin w2)) copied))
  /\ (spooling v <> 0 -> (n <= length (stdin w2))%nat ->
      exists f data, fd = Some f /\ cwd copied !! f = Some (Reg 128 data)
                     /\ data = take n (stdin w2) /\ Z.of_nat (length data) = len).
Proof.
  intros Hread Hopen n copied. rewrite lpd_iter_unfold, Hread, Hopen.
  apply read_subcmd_Go in Hread as (_ & _ & _ & -> & Hlen & _).
  assert (Hcopied : stdout copied = stdout w2)
    by (unfold copied; by destruct fd).
  split_and!.
  - intros Hshort. rewrite transfer_short by lia.
    unfold copied. by rewrite take_ge, drop_ge by lia.
  - intros Hfull Hack. rewrite transfer_full by lia. fold n. fold copied.
    destruct (drop n (stdin w2)) as [|c rest] eqn:Hd; [by eexists|].
    assert (Hc : stdin w2 !! n = Some c).
    { rewrite <- (Nat.add_0_r n), <- lookup_drop, Hd. done. }
    destruct (Z.eqb_spec (byte_val c) 0) as [H0|_]; [by apply Hack in Hc|].
    by eexists.
  - intros c Hc H0.
    assert (Hfull : (n < length (stdin w2))%nat) by (by apply lookup_lt_Some in Hc).
    rewrite transfer_full by lia. fold n. fold copied.
    assert (Hd : drop n (stdin w2) = c :: drop (S n) (stdin w2)).
    { by apply drop_S. }
    rewrite Hd, H0. done.
  - intros Hsp Hfull.
    apply open_dest_Go in Hopen
      as (_ & _ & _ & _ & _ & _ & [(_ & -> & _ & _ & Hcwd & _)|(H0 & _)]);
      [|done].
    exists (sane fname), (take n (stdin w2)). split_and!; try done.
    + unfold copied. simpl. rewrite Hcwd, lookup_alter_eq, lookup_insert_eq. done.
    + rewrite length_take. lia.
Qed.

Lemma transfer_is_exact_witness :
  lpd_iter [] spooling_locals (queue_world (subcommand 3 "5 dfA" (B "abc") 0))
  = ErrExit (Locals 1 0 None (Some (B "dfA")) (B "q"))
      (World [] [Ack; ExpectedButGot 5 4]
         (<[B "dfA" := Reg 128 (B "abc" ++ byte 0)]> sample_queue_dir) ∅)
  /\ lpd_iter [] spooling_locals (queue_world (subcommand 3 "5 dfA" (B "hello") 0))
     = Go (Locals 1 0 None (Some (B "dfA")) (B "q"),
           World [] [Ack] (<[B "dfA" := Reg 384 (B "hello")]> sample_queue_dir) ∅).
Proof.
  split.
  - rewrite (proj1 (transfer_is_exact [] spooling_locals spooling_locals
               (Locals 1 0 None (Some (B "dfA")) (B "q"))
               (queue_world (subcommand 3 "5 dfA" (B "abc") 0))
               (World (B "abc" ++ byte 0) [Ack] sample_queue_dir ∅)
               (World (B "abc" ++ byte 0) [Ack]
                      (<[B "dfA" := Reg 128 []]> sample_queue_dir) ∅)
               3 5 (B "dfA") (Some (B "dfA"))
               ltac:(vm_compute; reflexivity) ltac:(vm_compute; reflexivity)));
      [vm_compute; reflexivity | simpl; lia].
  - rewrite (proj1 (proj2 (proj2 (transfer_is_exact [] spooling_locals spooling_locals
               (Locals 1 0 None (Some (B "dfA")) (B "q"))
               (queue_world (subcommand 3 "5 dfA" (B "hello") 0))
               (World (B "hello" ++ byte 0) [Ack] sample_queue_dir ∅)
               (World (B "hello" ++ byte 0) [Ack]
                      (<[B "dfA" := Reg 128 []]> sample_queue_dir) ∅)
               3 5 (B "dfA") (Some (B "dfA"))
               ltac:(vm_compute; reflexivity) ltac:(vm_compute; reflexivity))))
             NUL); [vm_compute; reflexivity | reflexivity | reflexivity].
Defined.

(** ** Sink mode *)

Lemma alter_append_nil (q : name) (m : gmap (list ascii) node) :
  alter (append_data []) q m = m.
Proof.
  apply map_eq. intros k. rewrite lookup_alter. case_decide; [|done]. subst.
  destruct (m !! k) as [[mode data|entries]|]; simpl; [|done..].
  by rewrite app_nil_r.
Qed.

Lemma alter_append_app (a b : list ascii) (q : name) (m : gmap (list ascii) node) :
  alter (append_data b) q (alter (append_data a) q m) = alter (append_data (a ++ b)) q m.
Proof.
  apply map_eq. intros k. destruct (decide (q = k)) as [->|Hne].
  - rewrite !lookup_alter_eq.
    destruct (m !! k) as [[mode data|entries]|]; simpl; [|done..].
    by rewrite app_assoc.
  - by rewrite !lookup_alter_ne.
Qed.

(** What one turn of the loop does to the current directory in sink mode. *)
Lemma sink_iter (argv : list name) (v : locals) (w : world) :
  spooling v = 0 ->
  match lpd_iter argv v w with
  | Go (v', w') | ErrExit v' w' =>
      spooling v' = 0 /\ queue v' = queue v
      /\ exists extra, cwd w' = alter (append_data extra) (queue v) (cwd w)
  | Leave o => forall w', final_world o = Some w' -> cwd w' = cwd w
  end.
Proof.
  intros Hsp.
  destruct (lpd_iter argv v w) as [[v' w']|v' w'|o] eqn:Hit.
  - pose proof Hit as Hgo.
    apply lpd_iter_Go in Hgo as (Hs' & Hq & _);
      [|rewrite Hsp; unfold int_range, INT_MAX; lia].
    split_and!; [congruence | done |].
    rewrite lpd_iter_unfold in Hit.
    destruct (read_subcmd v w) as [[[[[s0 len] fname] v1] w1]| |] eqn:Hread; [|done..].
    apply read_subcmd_Go in Hread as ((s & Hs & _) & _ & _ & -> & Hlen & _).
    apply xmalloc_read_stdin_Some in Hs as (_ & _ & _ & Hw1).
    destruct (open_dest s0 fname (set_seen 0 v) w1) as [[[fd v2] w2]| |] eqn:Hopen;
      [|done..].
    apply open_dest_Go in Hopen
      as (_ & _ & _ & _ & _ & _ & [(Hne & _)|(_ & -> & -> & Hfd)]); [done|].
    destruct (transfer fd len (set_seen 0 v) w1) as [[a w3]| |] eqn:Htr; [|done..].
    apply transfer_Go in Htr as (-> & _ & _ & _ & Hcwd & _); [|lia].
    rewrite commit_zero in Hit
      by (simpl; rewrite Hsp; unfold int_range, INT_MAX; lia).
    simpl in Hit. rewrite Hsp in Hit. simpl in Hit. simplify_eq.
    rewrite Hcwd.
    assert (Hc1 : cwd w1 = cwd w) by (by rewrite Hw1).
    destruct Hfd as [(_ & Hfd & _)|(_ & Hfd)]; rewrite Hfd; simpl.
    + eexists. rewrite Hc1. reflexivity.
    + exists []. by rewrite alter_append_nil.
  - pose proof Hit as Herr. apply lpd_iter_ErrExit in Herr.
    rewrite lpd_iter_unfold in Hit.
    destruct (read_subcmd v w) as [[[[[s0 len] fname] v1] w1]| |] eqn:Hread; [| |done].
    2:{ simplify_eq. apply read_subcmd_ErrExit in Hread as (_ & _ & _ & Hc & Hq).
        split_and!; [congruence | done | exists []; by rewrite alter_append_nil]. }
    apply read_subcmd_Go in Hread as ((s & Hs & _) & _ & _ & -> & Hlen & _).
    apply xmalloc_read_stdin_Some in Hs as (_ & _ & _ & Hw1).
    destruct (open_dest s0 fname (set_seen 0 v) w1) as [[[fd v2] w2]| |] eqn:Hopen;
      [| |done].
    2:{ simplify_eq. by apply open_dest_ErrExit in Hopen as (_ & _ & Hne). }
    apply open_dest_Go in Hopen
      as (_ & _ & _ & _ & _ & _ & [(Hne & _)|(_ & -> & -> & Hfd)]); [done|].
    destruct (transfer fd len (set_seen 0 v) w1) as [[a w3]| |] eqn:Htr; [| |done].
    2:{ simplify_eq. apply transfer_ErrExit in Htr as (-> & bytes & Hcwd).
        split_and!; [done | done |]. rewrite Hcwd.
        assert (Hc1 : cwd w1 = cwd w) by (by rewrite Hw1).
        destruct Hfd as [(_ & Hfd & _)|(_ & Hfd)]; rewrite Hfd; simpl.
        - eexists. rewrite Hc1. reflexivity.
        - exists []. by rewrite alter_append_nil. }
    apply transfer_Go in Htr as (-> & _); [|lia].
    rewrite commit_zero in Hit
      by (simpl; rewrite Hsp; unfold int_range, INT_MAX; lia). done.
  - apply lpd_iter_Leave in Hit
      as [(-> & _)|[(w' & -> & _ & Hc)|(v' & w' & _ & _ & Hne & _)]];
      [| |done]; simpl; intros w'' ?; by simplify_eq.
Qed.

Lemma sink_loop (argv : list name) (fuel : nat) : forall (v : locals) (w w' : world),
  spooling v = 0 ->
  final_world (lpd_loop fuel argv v w) = Some w' ->
  exists extra, cwd w' = alter (append_data extra) (queue v) (cwd w).
Proof.
  induction fuel as [|fuel IH]; intros v w w' Hsp; [done|]. simpl.
  pose proof (sink_iter argv v w Hsp) as Hit.
  destruct (lpd_iter argv v w) as [[v1 w1]|v1 w1|o].
  - destruct Hit as (Hsp1 & Hq & extra & Hcwd). intros Hf.
    apply IH in Hf as [extra' Hcwd']; [|done].
    exists (extra ++ extra'). by rewrite Hcwd', Hq, Hcwd, alter_append_app.
  - destruct Hit as (Hsp1 & Hq & extra & Hcwd). unfold err_exit.
    rewrite Hsp1. simpl. intros ?; simplify_eq. by exists extra.
  - intros Hf. apply Hit in Hf. exists []. by rewrite alter_append_nil.
Qed.

(** C9: in sink mode the current directory changes in one entry at most, the
    queue target, and there only by bytes appended to it: no name is added
    and no other entry is touched, however the session ends.  A turn of the
    loop that falls through has read exactly the declared number of payload
    bytes and the acknowledgement; for a control file (2) it leaves the
    directory as it was, for a data file (3) it has appended the payload to
    the queue target. *)
Theorem sink_mode_frame (argv : list name) (fuel : nat) (v : locals) (w : world) :
  spooling v = 0 ->
  (forall w', final_world (lpd_loop fuel argv v w) = Some w' ->
     (exists extra, cwd w' = alter (append_data extra) (queue v) (cwd w))
     /\ dom (cwd w') = dom (cwd w)
     /\ (forall k, k <> queue v -> cwd w' !! k = cwd w !! k))
  /\ (forall s0 len fname v1 w1 v' w',
       read_subcmd v w = Go (s0, len, fname, v1, w1) ->
       lpd_iter argv v w = Go (v', w') ->
       Z.of_nat (length (take (Z.to_nat len) (stdin w1))) = len
       /\ stdin w' = drop (S (Z.to_nat len)) (stdin w1)
       /\ cwd w' = if s0 =? 3
                   then alter (append_data (take (Z.to_nat len) (stdin w1)))
                              (queue v) (cwd w)
                   else cwd w).
Proof.
  intros Hsp. split.
  - intros w' Hf. apply sink_loop in Hf as [extra Hcwd]; [|done].
    split_and!; [by exists extra | by rewrite Hcwd, dom_alter_L |].
    intros k Hk. by rewrite Hcwd, lookup_alter_ne.
  - intros s0 len fname v1 w1 v' w' Hread. rewrite lpd_iter_unfold, Hread.
    apply read_subcmd_Go in Hread as ((s & Hs & _) & Hcmd & _ & -> & Hlen & _).
    apply xmalloc_read_stdin_Some in Hs as (_ & _ & _ & Hw1).
    assert (Hc1 : cwd w1 = cwd w) by (by rewrite Hw1).
    destruct (open_dest s0 fname (set_seen 0 v) w1) as [[[fd v2] w2]| |] eqn:Hopen;
      [|done..].
    apply open_dest_Go in Hopen
      as (_ & _ & _ & _ & _ & _ & [(Hne & _)|(_ & -> & -> & Hfd)]); [done|].
    destruct (transfer fd len (set_seen 0 v) w1) as [[a w3]| |] eqn:Htr; [|done..].
    apply transfer_Go in Htr as (-> & _ & _ & _ & Hcwd & Hin & Hn); [|lia].
    rewrite commit_zero by (simpl; rewrite Hsp; unfold int_range, INT_MAX; lia).
    simpl. rewrite Hsp. simpl. intros ?; simplify_eq.
    split_and!; [rewrite length_take; lia | done |].
    rewrite Hcwd.
    destruct Hfd as [(-> & Hfd & _)|(H3 & Hfd)]; rewrite Hfd; simpl.
    + by rewrite Hc1.
    + destruct (Z.eqb_spec s0 3); done.
Qed.

Lemma sink_mode_frame_witness :
  exists extra,
    <[B "lp0" := Reg 438 (B "prevhello")]> sample_spool
    = alter (append_data extra) (B "lp0") sample_spool.
Proof.
  refine (proj1 (proj1 (sink_mode_frame [] 3 (Locals 0 0 None None (B "lp0"))
           (sample_world (subcommand 2 "3 cfA" (B "xyz") 0 ++ subcommand 3 "5 dfA" (B "hello") 0))
           eq_refl)
           (World [] [Ack; Ack; Ack]
                  (<[B "lp0" := Reg 438 (B "prevhello")]> sample_spool) ∅) _)).
  vm_compute. reflexivity.
Defined.

(** ** Where the program departs from its own comments *)

(** [seen] is 0 after every turn of the loop: line 194 computes
    [seen & (s[0] - 1)], which is reached only when that value is 0. *)
Lemma seen_stays_zero (argv : list name) (v v' : locals) (w w' : world) :
  int_range (spooling v) -> lpd_iter argv v w = Go (v', w') -> seen v' = 0.
Proof. intros Hr Hit. by apply lpd_iter_Go in Hit as (_ & _ & ? & _). Qed.

(** With [seen] 0 the test of line 190 fails for every subcommand. *)
Lemma duplicate_test_never_fires (v : locals) (w : world) (s : list ascii) (w1 : world) :
  seen v = 0 ->
  xmalloc_read_stdin (put Ack w) = Some (s, w1) ->
  read_subcmd v w <> ErrExit v (put DuplicatedSubcommand w1).
Proof.
  intros Hseen Hread. unfold read_subcmd. rewrite Hread, Hseen. cbv zeta.
  rewrite Z.land_0_l. simpl.
  repeat case_match; try done; intros ?; simplify_eq.
  all: match goal with H : put _ _ = put _ _ |- _ =>
         apply (f_equal stdout) in H; simpl in H;
         apply app_inj_tail in H as [_ ?]; done end.
Qed.

(** C1, at the failing input: in a spooling session a second "receive data
    file" subcommand is not rejected; the second turn of the loop falls
    through like the first, with the second file created, filled and made
    readable, and nothing but acknowledgements sent to the peer. *)
Theorem duplicate_data_subcommand_accepted :
  lpd_iter [] spooling_locals (queue_world two_data_files)
  = Go (Locals 1 0 None (Some (B "dfA")) (B "q"),
        World (subcommand 3 "1 dfB" (B "b") 0) [Ack]
              (<[B "dfA" := Reg 384 (B "a")]> sample_queue_dir) ∅)
  /\ lpd_iter [] (Locals 1 0 None (Some (B "dfA")) (B "q"))
       (World (subcommand 3 "1 dfB" (B "b") 0) [Ack]
              (<[B "dfA" := Reg 384 (B "a")]> sample_queue_dir) ∅)
     = Go (Locals 1 0 None (Some (B "dfB")) (B "q"),
           World [] [Ack; Ack]
                 (<[B "dfB" := Reg 384 (B "b")]>
                    (<[B "dfA" := Reg 384 (B "a")]> sample_queue_dir)) ∅).
Proof. split; vm_compute; reflexivity. Qed.

(** C2, at the failing input: the session of [two_data_files] ends in an
    error (the stream ends in spooling mode) with status 1, and the file
    [dfA] it created is still in the queue directory: line 229 has
    overwritten its name with [dfB], the only name line 278 unlinks. *)
Theorem orphan_left_after_error :
  lpd_main 0 [] (sample_world (receive_job "q" ++ two_data_files))
  = Returned EXIT_FAILURE
      (World [] [Ack; Ack; Ack]
             (<[B "dfA" := Reg 384 (B "a")]> sample_queue_dir) ∅).
Proof. vm_compute. reflexivity. Qed.

(** C3, at the failing input: a helper is configured and both files of the
    job are received with their declared lengths and acknowledged, yet the
    helper is not invoked: the session runs into the end of the stream,
    removes both files and returns 1. *)
Theorem complete_job_helper_not_invoked :
  lpd_main 0 [B "helper"] (sample_world (receive_job "q" ++ complete_job))
  = Returned EXIT_FAILURE (World [] [Ack; Ack; Ack] sample_queue_dir ∅).
Proof. vm_compute. reflexivity. Qed.

(** C5, at the failing input: a sink-mode session in which the peer sends
    the "receive data file" subcommand twice, a protocol error, is not
    aborted: the test of line 190 never fires, both payloads are appended
    to the queue target, and at the end of the stream line 183 returns 0,
    not 1. *)
Theorem repeated_data_in_sink_mode_returns_success :
  lpd_main 0 [] (sample_world (receive_job "lp0" ++ two_data_files))
  = Returned EXIT_SUCCESS
      (World [] [Ack; Ack; Ack]
             (<[B "lp0" := Reg 438 (B "prevab")]> sample_spool) ∅).
Proof. vm_compute. reflexivity. Qed.

Lemma spec_counter_sum (rs : list receipt) : forall acc,
  fold_left (fun acc r => acc + receipt_code r) rs acc
  = acc + 2 * Z.of_nat (count_ctrl rs) + 3 * Z.of_nat (count_data rs).
Proof.
  unfold count_ctrl, count_data.
  induction rs as [|r rs IH]; intros acc; simpl; [lia|].
  rewrite IH. destruct r; simpl; lia.
Qed.

(** The arithmetic of the comment of line 257 is sound: the counter the
    comment describes is 6 exactly when one control file and one data file
    were received. *)
Lemma spec_counter_complete (rs : list receipt) :
  spec_counter rs = 6 <-> count_ctrl rs = 1%nat /\ count_data rs = 1%nat.
Proof. unfold spec_counter. rewrite spec_counter_sum. lia. Qed.

(** C10, at the failing input: after one control file and one data file
    have been received the counter of the code is 1, not the 6 that
    [spec_counter] gives: line 258 adds [s[0]], which since line 246 holds
    the acknowledgement byte. *)
Theorem counter_after_complete_job :
  exists w1 w2,
    lpd_iter [B "helper"] spooling_locals (queue_world complete_job)
    = Go (Locals 1 0 (Some (B "cfA001host")) None (B "q"), w1)
    /\ lpd_iter [B "helper"] (Locals 1 0 (Some (B "cfA001host")) None (B "q")) w1
       = Go (Locals 1 0 (Some (B "cfA001host")) (Some (B "dfA001host")) (B "q"), w2)
    /\ spec_counter [CtrlFile; DataFile] = 6.
Proof.
  eexists _, _. split_and!; [vm_compute; reflexivity .. | reflexivity].
Qed.

(** ** Cleanup at the error exit *)

Lemma unlink_lookup_ne (f k : name) (w : world) :
  f <> k -> cwd (unlink f w) !! k = cwd w !! k.
Proof.
  intros Hne. unfold unlink. repeat case_match; try done.
  simpl. by rewrite lookup_delete_ne.
Qed.

Lemma unlink_lookup_eq (f : name) (w : world) (mode : Z) (data : list ascii) :
  cwd w !! f = Some (Reg mode data) -> cwd (unlink f w) !! f = None.
Proof. intros H. unfold unlink. rewrite H. simpl. by rewrite lookup_delete_eq. Qed.

Lemma unlink_lookup_None (f k : name) (w : world) :
  cwd w !! k = None -> cwd (unlink f w) !! k = None.
Proof.
  intros H. destruct (decide (f = k)) as [->|Hne].
  - unfold unlink. by rewrite H.
  - by rewrite unlink_lookup_ne.
Qed.

(** When every file the session created is still recorded in [filenames],
    lines 272-280 restore the directory the session found. *)
Lemma err_exit_restores (fs0 : gmap (list ascii) node) (v : locals) (w : world) :
  tracked fs0 v w -> spooling v <> 0 ->
  exists w', err_exit v w = Returned EXIT_FAILURE w' /\ cwd w' = fs0.
Proof.
  intros Ht Hsp. unfold err_exit. eexists. split; [done|].
  destruct (Z.eqb_spec (spooling v) 0) as [|_]; [done|]. simpl.
  apply map_eq. intros k. destruct (Ht k) as [Hrec Hnot]. unfold recorded in *.
  destruct (filenames0 v) as [a|] eqn:Ha, (filenames1 v) as [b|] eqn:Hb; simpl.
  - destruct (Ht a) as [[_ (ma & da & Hfa)] _]; [by left|].
    destruct (Ht b) as [[_ (mb & db & Hfb)] _]; [by right|].
    destruct (decide (a = k)) as [->|Hak].
    + destruct (Hrec ltac:(by left)) as [-> _].
      apply unlink_lookup_None. by eapply unlink_lookup_eq.
    + destruct (decide (b = k)) as [->|Hbk].
      * destruct (Hrec ltac:(by right)) as [-> _].
        eapply unlink_lookup_eq. by rewrite unlink_lookup_ne.
      * rewrite !unlink_lookup_ne by done. apply Hnot. intros [?|?]; simplify_eq.
  - destruct (Ht a) as [[_ (ma & da & Hfa)] _]; [by left|].
    destruct (decide (a = k)) as [->|Hak].
    + destruct (Hrec ltac:(by left)) as [-> _]. by eapply unlink_lookup_eq.
    + rewrite unlink_lookup_ne by done. apply Hnot. intros [?|?]; simplify_eq.
  - destruct (Ht b) as [[_ (mb & db & Hfb)] _]; [by right|].
    destruct (decide (b = k)) as [->|Hbk].
    + destruct (Hrec ltac:(by right)) as [-> _]. by eapply unlink_lookup_eq.
    + rewrite unlink_lookup_ne by done. apply Hnot. intros [?|?]; simplify_eq.
  - apply Hnot. intros [?|?]; simplify_eq.
Qed.

Lemma tracked_same (fs0 : gmap (list ascii) node) (v v' : locals) (w w' : world) :
  filenames0 v' = filenames0 v -> filenames1 v' = filenames1 v -> cwd w' = cwd w ->
  tracked fs0 v w -> tracked fs0 v' w'.
Proof.
  intros H0 H1 Hc Ht k. unfold recorded. rewrite H0, H1, Hc. apply Ht.
Qed.

(** Changing a recorded file in place keeps the bookkeeping. *)
Lemma tracked_alter (fs0 : gmap (list ascii) node) (v : locals) (w w' : world)
    (f : name) (g : node -> node) :
  (forall mode data, exists mode' data', g (Reg mode data) = Reg mode' data') ->
  recorded v f -> cwd w' = alter g f (cwd w) ->
  tracked fs0 v w -> tracked fs0 v w'.
Proof.
  intros Hg Hf Hc Ht k. rewrite Hc. destruct (Ht k) as [Hrec Hnot]. split.
  - intros Hk. destruct (Hrec Hk) as (Hnone & mode & data & Hfile).
    split; [done|]. destruct (decide (f = k)) as [->|Hne].
    + rewrite lookup_alter_eq, Hfile. simpl.
      destruct (Hg mode data) as (m' & d' & ->). eauto.
    + rewrite lookup_alter_ne by done. eauto.
  - intros Hk. rewrite lookup_alter_ne; [by apply Hnot|].
    intros ->. by apply Hk.
Qed.

(** Line 229 keeps the bookkeeping when the entry it writes was empty. *)
Lemma tracked_open (fs0 : gmap (list ascii) node) (v : locals) (w w' : world)
    (s0 : Z) (f : name) :
  slot s0 v = None -> cwd w !! f = None ->
  cwd w' = <[f := Reg 128 []]> (cwd w) ->
  tracked fs0 v w -> tracked fs0 (set_filename (s0 - 2) f v) w'.
Proof.
  intros Hslot Hfree Hc Ht k. rewrite Hc.
  assert (Hnew : ~ recorded v f).
  { intros Hr. destruct (Ht f) as [Hrec _].
    destruct (Hrec Hr) as (_ & m & d & Hfile). congruence. }
  assert (Hrec' : recorded (set_filename (s0 - 2) f v) k <-> k = f \/ recorded v k).
  { unfold recorded, set_filename, slot in *.
    destruct (s0 - 2 =? 0); simpl; rewrite ?Hslot;
      split; intros Hk; intuition (subst; eauto; congruence). }
  destruct (Ht k) as [Hrec Hnot]. split.
  - intros Hk. apply Hrec' in Hk as [->|Hk].
    + split; [|rewrite lookup_insert_eq; eauto].
      destruct (Ht f) as [_ Hn]. rewrite <- Hn; done.
    + destruct (Hrec Hk) as (Hnone & m & d & Hfile). split; [done|].
      rewrite lookup_insert_ne; [eauto|]. intros ->. by apply Hnew.
  - intros Hk. rewrite lookup_insert_ne; [apply Hnot|]; intros ?; apply Hk;
      apply Hrec'; eauto.
Qed.

(** A turn of the loop in spooling mode keeps the bookkeeping as long as
    the subcommand it receives is the first of its type. *)
Lemma lpd_iter_tracked (argv : list name) (fs0 : gmap (list ascii) node)
    (v : locals) (w : world) :
  tracked fs0 v w -> spooling v <> 0 -> int_range (spooling v) -> spooling v <> 6 ->
  (forall s0 len fname v1 w1,
     read_subcmd v w = Go (s0, len, fname, v1, w1) -> slot s0 v = None) ->
  match lpd_iter argv v w with
  | Go (v', w') | ErrExit v' w' => tracked fs0 v' w'
  | Leave _ => True
  end.
Proof.
  intros Ht Hsp Hr H6 Hfirst. rewrite lpd_iter_unfold.
  destruct (read_subcmd v w) as [[[[[s0 len] fname] v1] w1]|v' w'|] eqn:Hread;
    [| |done].
  2:{ apply read_subcmd_ErrExit in Hread as (_ & H0 & H1 & Hc & _).
      by apply (tracked_same fs0 v v' w w'). }
  specialize (Hfirst _ _ _ _ _ eq_refl).
  apply read_subcmd_Go in Hread as ((s & Hs & _) & _ & _ & -> & Hlen & _).
  apply xmalloc_read_stdin_Some in Hs as (_ & _ & _ & Hw1).
  assert (Ht1 : tracked fs0 (set_seen 0 v) w1).
  { apply (tracked_same fs0 v _ w); try done. by rewrite Hw1. }
  destruct (open_dest s0 fname (set_seen 0 v) w1) as [[[fd v2] w2]|v' w'|] eqn:Hopen;
    [| |done].
  2:{ apply open_dest_ErrExit in Hopen as (-> & Hc & _).
      by apply (tracked_same fs0 (set_seen 0 v) _ w1). }
  apply open_dest_Go in Hopen
    as (_ & _ & _ & Hsp2 & _ & _ & [(_ & -> & _ & Hfree & Hcwd & ->)|(H0 & _)]);
    [|done].
  assert (Ht2 : tracked fs0 (set_filename (s0 - 2) (sane fname) (set_seen 0 v)) w2).
  { by apply (tracked_open fs0 (set_seen 0 v) w1). }
  assert (Hrec : recorded (set_filename (s0 - 2) (sane fname) (set_seen 0 v)) (sane fname)).
  { unfold recorded, set_filename. destruct (s0 - 2 =? 0); simpl; eauto. }
  set (v2 := set_filename (s0 - 2) (sane fname) (set_seen 0 v)) in *.
  assert (Happend : forall bytes mode data,
            exists mode' data', append_data bytes (Reg mode data) = Reg mode' data')
    by (intros; simpl; eauto).
  destruct (transfer (Some (sane fname)) len v2 w2) as [[a w3]|v' w'|] eqn:Htr;
    [| |done].
  2:{ apply transfer_ErrExit in Htr as (-> & bytes & Hc).
      by apply (tracked_alter fs0 v2 w2 w' (sane fname) (append_data bytes)). }
  apply transfer_Go in Htr as (-> & _ & _ & _ & Hc3 & _); [|lia].
  assert (Ht3 : tracked fs0 v2 w3).
  { by apply (tracked_alter fs0 v2 w2 w3 (sane fname)
                (append_data (take (Z.to_nat len) (stdin w2)))). }
  simpl in Hsp2. rewrite commit_zero by (rewrite Hsp2; done).
  rewrite Hsp2. destruct (Z.eqb_spec (spooling v) 0); [done|].
  apply (tracked_alter fs0 v2 w3 _ (sane fname) (set_mode 384)); try done.
  intros; simpl; eauto.
Qed.

(** * Further properties of the code *)

(** ** sane, once more *)

Lemma filter_id_all {A : Type} (f : A -> bool) (l : list A) :
  List.filter f l = l <-> (forall x, In x l -> f x = true).
Proof.
  induction l as [|a l IH]; simpl; [by split|].
  destruct (f a) eqn:Ha.
  - split.
    + intros Heq x [<-|Hx]; [done|]. apply IH; [congruence | done].
    + intros Hall. f_equal. apply IH. intros x Hx. apply Hall. by right.
  - split.
    + intros Heq. pose proof (List.filter_length_le f l) as Hle.
      rewrite Heq in Hle. simpl in Hle. lia.
    + intros Hall. specialize (Hall a (or_introl eq_refl)). congruence.
Qed.

(** X1: [sane] never makes a string longer, so the bytes it stores through
    [p] stay inside the buffer it reads; and it leaves a string as it is
    exactly when every character of the string passes the test of line 74. *)
Theorem sane_shrinks_and_fixes (str : list ascii) :
  (length (sane str) <= length (c_str str))%nat
  /\ (sane str = c_str str <-> forall c, In c (c_str str) -> sane_char c = true).
Proof.
  rewrite sane_filter. split; [apply List.filter_length_le | apply filter_id_all].
Qed.

(** ** The first command *)

(** X2: when the first command does not begin with byte 2, [lpd_main] tells
    the peer that the command is not supported and returns 1, leaving the
    directory alone, whatever the indeterminate value of [spooling] that
    line 274 reads. *)
Theorem unsupported_first_command (spooling0 : Z) (argv : list name)
    (w w1 : world) (s : list ascii) :
  xmalloc_read_stdin w = Some (s, w1) ->
  byte_val (hd NUL s) <> 2 ->
  lpd_main spooling0 argv w
  = Returned EXIT_FAILURE (put (NotSupported (byte_val (hd NUL s))) w1)
  /\ cwd w1 = cwd w.
Proof.
  intros Hread Hcmd. unfold lpd_main, lpd_start. rewrite Hread. cbv zeta.
  destruct (Z.eqb_spec (byte_val (hd NUL s)) 2) as [|_]; [done|]. simpl.
  apply xmalloc_read_stdin_Some in Hread as (_ & _ & _ & Hw1).
  split; [|by rewrite Hw1].
  unfold err_exit. simpl. by destruct (negb (spooling0 =? 0)).
Qed.

Lemma unsupported_first_command_witness :
  lpd_main 77 [] (sample_world (byte 1 ++ B "lp0" ++ [LF]))
  = Returned EXIT_FAILURE (World [] [NotSupported 1] sample_spool ∅).
Proof.
  apply (unsupported_first_command 77 [] (sample_world (byte 1 ++ B "lp0" ++ [LF]))
           (World [] [] sample_spool ∅) (byte 1 ++ B "lp0" ++ [LF]));
    [reflexivity | vm_compute; congruence].
Defined.

(** X3: when [sane] keeps nothing of the queue name, as for a name made of
    dots and slashes, [lpd_main] returns 1 at once: nothing is sent to the
    peer, no directory is entered and nothing is changed. *)
Theorem unsanitizable_queue_fails_silently (spooling0 : Z) (argv : list name)
    (w w1 : world) (s : list ascii) :
  xmalloc_read_stdin w = Some (s, w1) ->
  byte_val (hd NUL s) = 2 ->
  (forall c, In c (c_str (tl s)) -> sane_char c = false) ->
  lpd_main spooling0 argv w = Returned EXIT_FAILURE w1
  /\ stdout w1 = stdout w /\ cwd w1 = cwd w.
Proof.
  intros Hread Hcmd Hbad. unfold lpd_main, lpd_start. rewrite Hread. cbv zeta.
  rewrite Hcmd. simpl.
  assert (Hq : sane (tl s) = []).
  { rewrite sane_filter. induction (c_str (tl s)) as [|c l IH]; [done|].
    simpl. rewrite (Hbad c (or_introl eq_refl)). apply IH.
    intros d Hd. apply Hbad. by right. }
  rewrite Hq. apply xmalloc_read_stdin_Some in Hread as (_ & _ & _ & Hw1).
  split_and!; [done | by rewrite Hw1 | by rewrite Hw1].
Qed.

Lemma unsanitizable_queue_fails_silently_witness :
  lpd_main 0 [] (sample_world (dotted_job ++ subcommand 3 "1 dfA" (B "a") 0))
  = Returned EXIT_FAILURE
      (World (subcommand 3 "1 dfA" (B "a") 0) [] sample_spool ∅).
Proof.
  apply (unsanitizable_queue_fails_silently 0 []
           (sample_world (dotted_job ++ subcommand 3 "1 dfA" (B "a") 0))
           (World (subcommand 3 "1 dfA" (B "a") 0) [] sample_spool ∅)
           dotted_job); [reflexivity | reflexivity |].
  intros c Hc. vm_compute in Hc.
  repeat (destruct Hc as [<-|Hc]; [reflexivity|]). destruct Hc.
Defined.

(** ** The ceiling is inclusive *)

(** X4: a control-file subcommand that declares up to 16 KB, 16384 bytes
    included, passes the validation of lines 186-219. *)
Theorem control_file_up_to_ceiling_accepted (v : locals) (w w1 : world)
    (s cmd_len fname : list ascii) (n : Z) :
  xmalloc_read_stdin (put Ack w) = Some (s, w1) ->
  byte_val (hd NUL s) = 2 ->
  Z.land (seen v) 1 = 0 ->
  strchr SP (cut_at LF (c_str s)) = Some (cmd_len, fname) ->
  bb_strtou (tl cmd_len) = (n, false) ->
  n <= 16 * 1024 ->
  read_subcmd v w = Go (2, n, fname, set_seen 0 v, w1).
Proof.
  intros Hread Hcmd Hseen Hsp Hnum Hn.
  assert (Hl : Z.land (seen v) (byte_val (hd NUL s) - 1) = 0) by (by rewrite Hcmd).
  rewrite (read_subcmd_length v w w1 s cmd_len fname n Hread
             (or_introl Hcmd) Hl Hsp Hnum).
  rewrite Hcmd.
  replace (INT_MAX <? n) with false
    by (symmetry; apply Z.ltb_ge; unfold INT_MAX; lia).
  by replace (16 * 1024 <? n) with false by (symmetry; apply Z.ltb_ge; lia).
Qed.

Lemma control_file_up_to_ceiling_accepted_witness :
  read_subcmd spooling_locals (queue_world ceiling_subcommand)
  = Go (2, 16384, B "cfA001host", spooling_locals,
        World [] [Ack] sample_queue_dir ∅).
Proof.
  apply (control_file_up_to_ceiling_accepted spooling_locals
           (queue_world ceiling_subcommand) (World [] [Ack] sample_queue_dir ∅)
           ceiling_subcommand (byte 2 ++ B "16384") (B "cfA001host") 16384);
    try reflexivity; vm_compute; congruence.
Defined.

(** ** The environment of the helper *)

Lemma bind_all_other (bs : list (list ascii * list ascii)) (k : list ascii) :
  forall e : gmap (list ascii) (list ascii),
  (forall b, In b bs -> b.1 <> k) -> bind_all bs e !! k = e !! k.
Proof.
  unfold bind_all. induction bs as [|b bs IH]; intros e Hk; simpl; [done|].
  rewrite IH by (intros b' Hb'; apply Hk; by right).
  apply lookup_insert_ne. apply Hk. by left.
Qed.

Lemma spec_directives_keys (ls : list (list ascii)) (b : list ascii * list ascii) :
  In b (spec_directives ls) -> length b.1 = 1%nat.
Proof.
  revert b. induction ls as [|l ls IH]; intros b; simpl; [done|].
  destruct l as [|c value]; [done|]. destruct (isalpha c); [|done].
  intros [<-|Hb]; [done | by apply IH].
Qed.

(** X5: whatever the control file says, the helper finds in DATAFILE the
    name under which the data file is stored; the control file can set
    variables of one letter only, so every other variable of the inherited
    environment is as it was; and the data file itself is not touched. *)
Theorem datafile_names_stored_file (v : locals) (argv : list name) (w : world)
    (ctrlfile datafile : name) (mode : Z) (content : list ascii) :
  filenames0 v = Some ctrlfile ->
  filenames1 v = Some datafile ->
  cwd w !! ctrlfile = Some (Reg mode content) ->
  exists w', exec_helper v argv w = Exec argv w'
    /\ env w' !! DATAFILE = Some datafile
    /\ (forall k, k <> DATAFILE -> length k <> 1%nat -> env w' !! k = env w !! k)
    /\ (datafile <> ctrlfile -> cwd w' !! datafile = cwd w !! datafile).
Proof.
  intros H0 H1 Hfile. unfold exec_helper, xmalloc_open_read_close.
  rewrite H0, H1, Hfile. rewrite setenv_lines_spec by done.
  eexists. split; [done|]. simpl.
  destruct (unlink_opt_keeps (Some ctrlfile) w) as (_ & _ & Henv). simpl in Henv.
  rewrite Henv. split_and!.
  - rewrite bind_all_other; [by rewrite lookup_insert_eq|].
    intros b Hb Heq. apply spec_directives_keys in Hb. rewrite Heq in Hb.
    vm_compute in Hb. discriminate Hb.
  - intros k Hk Hlen. rewrite bind_all_other; [by rewrite lookup_insert_ne|].
    intros b Hb Heq. apply spec_directives_keys in Hb. by rewrite Heq in Hb.
  - intros Hne. by rewrite unlink_lookup_ne.
Qed.

Lemma datafile_names_stored_file_witness :
  exists w',
    exec_helper (Locals 6 0 (Some (B "cfA")) (Some (B "dfA")) (B "q")) [B "helper"]
      (World [] [] (<[B "cfA" := Reg 384 sample_ctrl]> (<[B "dfA" := Reg 384 (B "data")]> ∅))
             (<[B "DATAFILE" := B "spoofed"]> (<[B "PATH" := B "/bin"]> ∅)))
    = Exec [B "helper"] w'
    /\ env w' !! DATAFILE = Some (B "dfA").
Proof.
  set (w := World [] []
              (<[B "cfA" := Reg 384 sample_ctrl]> (<[B "dfA" := Reg 384 (B "data")]> ∅))
              (<[B "DATAFILE" := B "spoofed"]> (<[B "PATH" := B "/bin"]> ∅))).
  assert (Hfile : cwd w !! B "cfA" = Some (Reg 384 sample_ctrl))
    by (vm_compute; reflexivity).
  destruct (datafile_names_stored_file
              (Locals 6 0 (Some (B "cfA")) (Some (B "dfA")) (B "q")) [B "helper"]
              w (B "cfA") (B "dfA") 384 sample_ctrl eq_refl eq_refl Hfile)
    as (w' & Hexec & Hdata & _).
  exists w'. by split.
Defined.

(** ** What the peer is sent *)

Lemma read_subcmd_Go_out (v v1 : locals) (w w1 : world) (x : Z * Z * list ascii) :
  read_subcmd v w = Go (x, v1, w1) -> stdout w1 = stdout w ++ [Ack].
Proof.
  destruct x as [[s0 len] fname]. intros H.
  apply read_subcmd_Go in H as ((s & Hs & _) & _).
  apply xmalloc_read_stdin_Some in Hs as (_ & _ & _ & ->). done.
Qed.

Lemma commit_Go_out (argv : list name) (fd : fd_t) (a : Z) (v v' : locals)
    (w w' : world) :
  commit argv fd a v w = Go (v', w') ->
  stdout w' = stdout w /\ stdin w' = stdin w
  /\ w' = (if spooling v =? 0 then w else fchmod fd 384 w)
  /\ filenames0 v' = filenames0 v /\ filenames1 v' = filenames1 v.
Proof.
  destruct (commit_cases argv fd a v w) as [[-> _]|[-> _]]; [|done].
  intros ?; simplify_eq.
  destruct (spooling v =? 0); [done|]. by destruct fd.
Qed.

(** X6: a turn of the loop that falls through has sent the peer exactly one
    byte, the acknowledgement of line 171. *)
Theorem turn_sends_one_ack (argv : list name) (v v' : locals) (w w' : world) :
  lpd_iter argv v w = Go (v', w') -> stdout w' = stdout w ++ [Ack].
Proof.
  rewrite lpd_iter_unfold.
  destruct (read_subcmd v w) as [[[[[s0 len] fname] v1] w1]| |] eqn:Hread; [|done..].
  pose proof (read_subcmd_Go_out _ _ _ _ _ Hread) as Hout.
  apply read_subcmd_Go in Hread as (_ & _ & _ & _ & Hlen & _).
  destruct (open_dest s0 fname v1 w1) as [[[fd v2] w2]| |] eqn:Hopen; [|done..].
  apply open_dest_Go in Hopen as (_ & Ho2 & _).
  destruct (transfer fd len v2 w2) as [[a w3]| |] eqn:Htr; [|done..].
  apply transfer_Go in Htr as (_ & _ & Ho3 & _); [|lia].
  intros Hc. apply commit_Go_out in Hc as (-> & _). congruence.
Qed.

Lemma turn_sends_one_ack_witness :
  stdout (World [] [Ack] (<[B "dfA" := Reg 384 (B "hello")]> sample_queue_dir) ∅)
  = stdout (queue_world (subcommand 3 "5 dfA" (B "hello") 0)) ++ [Ack].
Proof.
  apply (turn_sends_one_ack [] spooling_locals
           (Locals 1 0 None (Some (B "dfA")) (B "q"))
           (queue_world (subcommand 3 "5 dfA" (B "hello") 0))).
  vm_compute. reflexivity.
Defined.

Lemma quiet_refl (e : event) (w w' : world) : stdout w' = stdout w -> quiet_about e w w'.
Proof. intros H. exists []. split; [by rewrite app_nil_r | intros []]. Qed.

Lemma quiet_trans (e : event) (w1 w2 w3 : world) :
  quiet_about e w1 w2 -> quiet_about e w2 w3 -> quiet_about e w1 w3.
Proof.
  intros (a & Ha & Hna) (b & Hb & Hnb). exists (a ++ b).
  split; [by rewrite Hb, Ha, app_assoc|].
  rewrite List.in_app_iff. tauto.
Qed.

Lemma quiet_put (e e' : event) (w w' : world) :
  e' <> e -> stdout w' = stdout w ++ [e'] -> quiet_about e w w'.
Proof.
  intros Hne H. exists [e']. split; [done|]. intros [?|[]]. done.
Qed.

Lemma quiet_put2 (e e1 e2 : event) (w w' : world) :
  e1 <> e -> e2 <> e -> stdout w' = (stdout w ++ [e1]) ++ [e2] -> quiet_about e w w'.
Proof.
  intros H1 H2 H. exists [e1; e2]. split; [by rewrite H, <- app_assoc|].
  intros [?|[?|[]]]; done.
Qed.

(** With an empty [seen], nothing [read_subcmd] sends is the message of line
    191. *)
Lemma read_subcmd_quiet (v : locals) (w : world) :
  seen v = 0 ->
  match read_subcmd v w with
  | Go (_, _, w') | ErrExit _ w' => quiet_about DuplicatedSubcommand w w'
  | Leave o => forall w', final_world o = Some w' ->
                          quiet_about DuplicatedSubcommand w w'
  end.
Proof.
  intros Hseen. unfold read_subcmd, xmalloc_read_stdin.
  repeat case_match; simplify_eq; simpl;
    try (intros w' ?; simplify_eq);
    try match goal with H : negb (Z.land _ _ =? 0) = true |- _ =>
          rewrite Hseen, Z.land_0_l in H; done end;
    first [ eapply quiet_put; [|reflexivity]; discriminate
          | eapply quiet_put2; [| |reflexivity]; discriminate ].
Qed.

Lemma exec_helper_out (v : locals) (argv : list name) (w w' : world) :
  final_world (exec_helper v argv w) = Some w' -> stdout w' = stdout w.
Proof.
  unfold exec_helper. repeat case_match; try done. simpl.
  intros ?; simplify_eq. rewrite setenv_lines_spec by done. simpl.
  unfold unlink. by repeat case_match.
Qed.

Lemma lpd_iter_quiet (argv : list name) (v : locals) (w : world) :
  seen v = 0 ->
  match lpd_iter argv v w with
  | Go (_, w') | ErrExit _ w' => quiet_about DuplicatedSubcommand w w'
  | Leave o => forall w', final_world o = Some w' ->
                          quiet_about DuplicatedSubcommand w w'
  end.
Proof.
  intros Hseen. pose proof (read_subcmd_quiet v w Hseen) as Hq.
  rewrite lpd_iter_unfold.
  destruct (read_subcmd v w) as [[[[[s0 len] fname] v1] w1]| |] eqn:Hread; [|done..].
  apply read_subcmd_Go in Hread as (_ & _ & _ & _ & Hlen & _).
  destruct (open_dest s0 fname v1 w1) as [[[fd v2] w2]|v' w'|o] eqn:Hopen.
  - apply open_dest_Go in Hopen as (_ & Ho2 & _).
    destruct (transfer fd len v2 w2) as [[a w3]|v' w'|o] eqn:Htr.
    + apply transfer_Go in Htr as (_ & _ & Ho3 & _); [|lia].
      assert (Hq3 : quiet_about DuplicatedSubcommand w w3).
      { eapply quiet_trans; [exact Hq|]. apply quiet_refl. congruence. }
      destruct (commit_cases argv fd a v2 w3) as [[-> _]|[-> _]].
      * eapply quiet_trans; [exact Hq3|]. apply quiet_refl.
        destruct (spooling v2 =? 0); [done|]. by destruct fd.
      * intros w' Hf. eapply quiet_trans; [exact Hq3|].
        assert (Hput : quiet_about DuplicatedSubcommand w3
                  (put Ack (if spooling v2 =? 0 then w3 else fchmod fd 384 w3))).
        { apply (quiet_put _ Ack); [done|]. simpl.
          destruct (spooling v2 =? 0); [done|]. by destruct fd. }
        eapply quiet_trans; [exact Hput|]. apply quiet_refl.
        by apply exec_helper_out in Hf.
    + eapply quiet_trans; [exact Hq|].
      unfold transfer, bb_copyfd_size, safe_read1 in Htr.
      assert (Hkeep : forall bytes x, stdout (write_fd fd bytes x) = stdout x)
        by (intros; by destruct fd).
      repeat case_match; simplify_eq; simpl.
      all: first [ eapply (quiet_put _ (ExpectedButGot _ _)); [discriminate|];
                   simpl; rewrite Hkeep; simpl; by rewrite Ho2
                 | apply quiet_refl; simpl; rewrite Hkeep; simpl; by rewrite Ho2 ].
    + by apply transfer_not_Leave in Htr.
  - eapply quiet_trans; [exact Hq|]. unfold open_dest in Hopen.
    repeat case_match; simplify_eq.
    eapply quiet_put; [|reflexivity]; discriminate.
  - intros w' Hf. eapply quiet_trans; [exact Hq|]. unfold open_dest in Hopen.
    repeat case_match; simplify_eq. simpl in Hf. simplify_eq.
    eapply quiet_put; [|reflexivity]; discriminate.
Qed.

Lemma lpd_loop_quiet (argv : list name) (fuel : nat) :
  forall (v : locals) (w w' : world),
  seen v = 0 -> int_range (spooling v) ->
  final_world (lpd_loop fuel argv v w) = Some w' ->
  quiet_about DuplicatedSubcommand w w'.
Proof.
  induction fuel as [|fuel IH]; intros v w w' Hseen Hr; [done|]. simpl.
  pose proof (lpd_iter_quiet argv v w Hseen) as Hq.
  destruct (lpd_iter argv v w) as [[v1 w1]|v1 w1|o] eqn:Hit.
  - apply lpd_iter_Go in Hit as (Hsp & _ & Hs1 & _); [|done].
    intros Hf. eapply quiet_trans; [exact Hq|].
    apply (IH v1); [done | by rewrite Hsp | done].
  - destruct (err_exit_keeps v1 w1) as (w2 & -> & _ & Ho). simpl.
    intros ?; simplify_eq. eapply quiet_trans; [exact Hq|]. by apply quiet_refl.
  - apply Hq.
Qed.

(** X7: in no session is the peer sent "Duplicated subcommand": [seen] is
    0 whenever line 190 tests it. *)
Theorem duplicate_never_reported (spooling0 : Z) (argv : list name) (w w' : world) :
  final_world (lpd_main spooling0 argv w) = Some w' ->
  quiet_about DuplicatedSubcommand w w'.
Proof.
  unfold lpd_main. destruct (lpd_start spooling0 w) as [[v w1]|v w1|o] eqn:Hs.
  - pose proof Hs as Hgo. apply lpd_start_Go in Hgo as (Hsp & Hseen & _).
    intros Hf. apply lpd_loop_quiet in Hf;
      [|done | unfold int_range, INT_MAX; lia].
    eapply quiet_trans; [|exact Hf]. apply quiet_refl.
    unfold lpd_start, chdir in Hs. repeat case_match; simplify_eq;
      match goal with H : xmalloc_read_stdin _ = Some _ |- _ =>
        apply xmalloc_read_stdin_Some in H as (_ & _ & _ & ->) end; done.
  - destruct (err_exit_keeps v w1) as (w2 & -> & _ & Ho). simpl.
    intros ?; simplify_eq. unfold lpd_start in Hs.
    repeat case_match; simplify_eq.
    match goal with H : xmalloc_read_stdin _ = Some _ |- _ =>
      apply xmalloc_read_stdin_Some in H as (_ & _ & _ & Hw) end.
    eapply quiet_put; [|rewrite Ho; simpl; rewrite Hw; reflexivity]. discriminate.
  - unfold lpd_start in Hs. repeat case_match; simplify_eq; simpl; try done.
    intros ?; simplify_eq. apply quiet_refl.
    match goal with H : xmalloc_read_stdin _ = Some _ |- _ =>
      apply xmalloc_read_stdin_Some in H as (_ & _ & _ & ->) end. done.
Qed.

Lemma duplicate_never_reported_witness :
  quiet_about DuplicatedSubcommand
    (sample_world (receive_job "q" ++ two_data_files))
    (World [] [Ack; Ack; Ack] (<[B "dfA" := Reg 384 (B "a")]> sample_queue_dir) ∅).
Proof.
  apply (duplicate_never_reported 0 []). vm_compute. reflexivity.
Defined.

(** ** How sessions end *)

(** X8: [lpd_main] comes to an end on every input: a turn of the loop that
    falls through has taken at least one byte off the stream, so the loop
    makes no more turns than the stream has bytes, plus one. *)
Theorem lpd_main_ends (spooling0 : Z) (argv : list name) (w : world) :
  lpd_main spooling0 argv w <> OutOfFuel
  /\ (forall v w1 v' w', int_range (spooling v) ->
        lpd_iter argv v w1 = Go (v', w') ->
        (length (stdin w') < length (stdin w1))%nat).
Proof.
  split; [apply lpd_main_terminates|].
  intros v w1 v' w' Hr Hit. by apply lpd_iter_Go in Hit as (_ & _ & _ & ? & _).
Qed.

Lemma lpd_main_ends_witness :
  (length (stdin (World (subcommand 3 "1 dfB" (B "b") 0) [Ack]
                        (<[B "dfA" := Reg 384 (B "a")]> sample_queue_dir) ∅))
   < length (stdin (queue_world two_data_files)))%nat.
Proof.
  apply (proj2 (lpd_main_ends 0 [] (sample_world [])) spooling_locals
           (queue_world two_data_files)
           (Locals 1 0 None (Some (B "dfA")) (B "q"))).
  - unfold int_range, INT_MAX. simpl. lia.
  - vm_compute. reflexivity.
Defined.

(** X9: a turn of the loop that falls through leaves [spooling] as it was:
    line 258 adds [s[0]], which holds the acknowledgement byte 0 that line
    246 has just read.  As the loop is entered with [spooling] 0 or 1, the
    test of line 264 never holds: on no input and with no helper command
    line does [lpd_main] reach the call of [exec_helper]. *)
Theorem helper_is_never_invoked (spooling0 : Z) (argv : list name) (w : world) :
  is_exec (lpd_main spooling0 argv w) = false
  /\ (forall v w1 v' w', int_range (spooling v) ->
        lpd_iter argv v w1 = Go (v', w') -> spooling v' = spooling v).
Proof.
  split; [apply lpd_main_never_exec|].
  intros v w1 v' w' Hr Hit. by apply lpd_iter_Go in Hit as (? & _).
Qed.

Lemma helper_is_never_invoked_witness :
  spooling (Locals 1 0 (Some (B "cfA001host")) (Some (B "dfA001host")) (B "q"))
  = spooling (Locals 1 0 (Some (B "cfA001host")) None (B "q")).
Proof.
  apply (proj2 (helper_is_never_invoked 0 [B "helper"] (sample_world []))
           (Locals 1 0 (Some (B "cfA001host")) None (B "q"))
           (World (subcommand 3 "5 dfA001host" (B "hello") 0) [Ack]
                  (<[B "cfA001host" := Reg 384 (B "Hhost" ++ [LF] ++ B "Puser" ++ [LF]
                                                ++ B "Jtest" ++ [LF])]> sample_queue_dir) ∅)
           (Locals 1 0 (Some (B "cfA001host")) (Some (B "dfA001host")) (B "q"))
           (World [] [Ack; Ack]
                  (<[B "dfA001host" := Reg 384 (B "hello")]>
                     (<[B "cfA001host" := Reg 384 (B "Hhost" ++ [LF] ++ B "Puser" ++ [LF]
                                                   ++ B "Jtest" ++ [LF])]> sample_queue_dir)) ∅)).
  - unfold int_range, INT_MAX. simpl. lia.
  - vm_compute. reflexivity.
Defined.

Lemma spooling_loop_fails (argv : list name) (fuel : nat) :
  forall (v : locals) (w : world),
  spooling v = 1 -> (length (stdin w) < fuel)%nat ->
  exists w', lpd_loop fuel argv v w = Returned EXIT_FAILURE w'.
Proof.
  induction fuel as [|fuel IH]; intros v w Hsp Hlen; [lia|]. simpl.
  assert (Hr : int_range (spooling v))
    by (rewrite Hsp; unfold int_range, INT_MAX; lia).
  destruct (lpd_iter argv v w) as [[v' w']|v' w'|o] eqn:Hit.
  - apply lpd_iter_Go in Hit as (Hsp' & _ & _ & Hshort & _); [|done].
    apply IH; [congruence | lia].
  - apply err_exit_status.
  - apply lpd_iter_Leave in Hit
      as [(_ & _ & H0)|[(w' & _ & H0 & _)|(v' & w' & _ & _ & _ & H6)]]; try lia.
    rewrite to_int_id in H6 by done. lia.
Qed.

(** X10: when the queue is a directory, so that line 159 sets [spooling] to
    1, [lpd_main] returns 1 whatever the peer sends: the end of the stream is
    an error in spooling mode and the helper is never reached. *)
Theorem spooling_session_returns_failure (spooling0 : Z) (argv : list name)
    (w w1 : world) (v : locals) :
  lpd_start spooling0 w = Go (v, w1) -> spooling v = 1 ->
  exists w', lpd_main spooling0 argv w = Returned EXIT_FAILURE w'.
Proof.
  intros Hs Hsp. unfold lpd_main. rewrite Hs. apply spooling_loop_fails; [done | lia].
Qed.

Lemma spooling_session_returns_failure_witness :
  exists w', lpd_main 0 [B "helper"] (sample_world (receive_job "q" ++ complete_job))
             = Returned EXIT_FAILURE w'.
Proof.
  apply (spooling_session_returns_failure 0 [B "helper"]
           (sample_world (receive_job "q" ++ complete_job))
           (queue_world complete_job) spooling_locals); reflexivity.
Defined.

(** ** Files in spooling mode *)

(** X11: in spooling mode a turn of the loop that falls through has created
    one file: its name is the sanitized file name of the subcommand, which
    was not empty and not in the directory before; its content is the
    payload, of the declared length; its mode is 0600; the name is stored in
    the entry of [filenames] the subcommand byte selects; and the stream is
    past the payload and the acknowledgement. *)
Theorem spooling_turn_stores_file (argv : list name) (v v1 v' : locals)
    (w w1 w' : world) (s0 len : Z) (fname : name) :
  spooling v <> 0 ->
  read_subcmd v w = Go (s0, len, fname, v1, w1) ->
  lpd_iter argv v w = Go (v', w') ->
  let payload := take (Z.to_nat len) (stdin w1) in
  sane fname <> [] /\ cwd w !! sane fname = None
  /\ cwd w' = <[sane fname := Reg 384 payload]> (cwd w)
  /\ Z.of_nat (length payload) = len
  /\ slot s0 v' = Some (sane fname)
  /\ stdin w' = drop (S (Z.to_nat len)) (stdin w1).
Proof.
  intros Hsp Hread. rewrite lpd_iter_unfold, Hread.
  apply read_subcmd_Go in Hread as ((s & Hs & _) & _ & _ & -> & Hlen & _).
  apply xmalloc_read_stdin_Some in Hs as (_ & _ & _ & Hw1).
  assert (Hc1 : cwd w1 = cwd w) by (by rewrite Hw1).
  destruct (open_dest s0 fname (set_seen 0 v) w1) as [[[fd v2] w2]| |] eqn:Hopen;
    [|done..].
  apply open_dest_Go in Hopen
    as (Hi2 & _ & _ & Hsp2 & _ & _ & [(_ & -> & Hne & Hfree & Hcwd & ->)|(H0 & _)]);
    [|done].
  destruct (transfer (Some (sane fname)) len _ w2) as [[a w3]| |] eqn:Htr; [|done..].
  apply transfer_Go in Htr as (-> & _ & _ & _ & Hc3 & Hi3 & Hn); [|lia].
  intros Hc payload. apply commit_Go_out in Hc as (_ & Hi & -> & Hf0 & Hf1).
  simpl in Hsp2. rewrite Hsp2.
  destruct (Z.eqb_spec (spooling v) 0) as [|_]; [done|].
  rewrite Hi2 in *. fold payload in Hc3.
  split_and!; [done | by rewrite <- Hc1 | | | | ].
  - simpl. rewrite Hc3. simpl. rewrite Hcwd, <- Hc1. apply map_eq. intros k.
    destruct (decide (sane fname = k)) as [<-|Hk].
    + by rewrite !lookup_alter_eq, !lookup_insert_eq.
    + by rewrite !lookup_alter_ne, !lookup_insert_ne.
  - unfold payload. rewrite length_take. lia.
  - unfold slot. rewrite ?Hf0, ?Hf1. unfold set_filename.
    by destruct (s0 - 2 =? 0).
  - by rewrite <- Hi3.
Qed.

Lemma spooling_turn_stores_file_witness :
  cwd (World [] [Ack] (<[B "etcpasswd" := Reg 384 (B "hello")]> sample_queue_dir) ∅)
  = <[sane (B "../../etc/passwd") := Reg 384 (B "hello")]> sample_queue_dir.
Proof.
  apply (spooling_turn_stores_file [] spooling_locals spooling_locals
           (Locals 1 0 None (Some (B "etcpasswd")) (B "q"))
           (queue_world (subcommand 3 "5 ../../etc/passwd" (B "hello") 0))
           (World (B "hello" ++ byte 0) [Ack] sample_queue_dir ∅)
           (World [] [Ack] (<[B "etcpasswd" := Reg 384 (B "hello")]> sample_queue_dir) ∅)
           3 5 (B "../../etc/passwd"));
    [simpl; lia | vm_compute; reflexivity | vm_compute; reflexivity].
Defined.

(** X12: in spooling mode a subcommand whose sanitized file name is empty
    or names something already in the directory is refused at line 227:
    the directory is as it was, the existing entry included, and no byte
    of the payload has been read. *)
Theorem name_collision_aborts (argv : list name) (v v1 : locals) (w w1 : world)
    (s0 len : Z) (fname : name) :
  spooling v <> 0 ->
  read_subcmd v w = Go (s0, len, fname, v1, w1) ->
  sane fname = [] \/ is_Some (cwd w !! sane fname) ->
  lpd_iter argv v w = ErrExit v1 (put (CannotOpen (sane fname)) w1)
  /\ cwd w1 = cwd w.
Proof.
  intros Hsp Hread Hname. rewrite lpd_iter_unfold, Hread.
  apply read_subcmd_Go in Hread as ((s & Hs & _) & _ & _ & -> & _).
  apply xmalloc_read_stdin_Some in Hs as (_ & _ & _ & Hw1).
  assert (Hc1 : cwd w1 = cwd w) by (by rewrite Hw1).
  split; [|done]. unfold open_dest, open3_or_warn.
  replace (spooling (set_seen 0 v) =? 0) with false
    by (symmetry; by apply Z.eqb_neq).
  cbv zeta. rewrite Hc1. generalize dependent (sane fname). intros f Hname.
  simpl. destruct Hname as [->|[n Hn]]; [done|].
  destruct f as [|c f]; [done|]. by rewrite Hn.
Qed.

Lemma name_collision_aborts_witness :
  lpd_iter [] spooling_locals (queue_world (subcommand 3 "5 old" (B "hello") 0))
  = ErrExit spooling_locals
      (World (B "hello" ++ byte 0) [Ack; CannotOpen (B "old")] sample_queue_dir ∅).
Proof.
  apply (name_collision_aborts [] spooling_locals spooling_locals
           (queue_world (subcommand 3 "5 old" (B "hello") 0))
           (World (B "hello" ++ byte 0) [Ack] sample_queue_dir ∅)
           3 5 (B "old"));
    [simpl; lia | vm_compute; reflexivity | right; vm_compute; eauto].
Defined.

Lemma tracked_start (v : locals) (w : world) :
  filenames0 v = None -> filenames1 v = None -> tracked (cwd w) v w.
Proof.
  intros H0 H1 k. unfold recorded. rewrite H0, H1.
  split; [intros [?|?]; done | done].
Qed.

(** X13: in spooling mode, as long as the subcommand a turn receives is the
    first of its type, every file the session has created is recorded in
    [filenames]; and when such a turn jumps to the error exit, lines
    272-280 leave the directory exactly as the session found it, the
    partly written file removed. *)
Theorem cleanup_without_repeats (argv : list name) (fs0 : gmap (list ascii) node)
    (v : locals) (w : world) :
  tracked fs0 v w -> spooling v <> 0 -> int_range (spooling v) -> spooling v <> 6 ->
  (forall s0 len fname v1 w1,
     read_subcmd v w = Go (s0, len, fname, v1, w1) -> slot s0 v = None) ->
  match lpd_iter argv v w with
  | Go (v', w') => tracked fs0 v' w'
  | ErrExit v' w' =>
      exists w'', err_exit v' w' = Returned EXIT_FAILURE w'' /\ cwd w'' = fs0
  | Leave _ => False
  end.
Proof.
  intros Ht Hsp Hr H6 Hfirst.
  pose proof (lpd_iter_tracked argv fs0 v w Ht Hsp Hr H6 Hfirst) as Hinv.
  destruct (lpd_iter argv v w) as [[v' w']|v' w'|o] eqn:Hit; [done| |].
  - apply err_exit_restores; [done|].
    apply lpd_iter_ErrExit in Hit. by rewrite Hit.
  - apply lpd_iter_Leave in Hit
      as [(_ & _ & H0)|[(w' & _ & H0 & _)|(v' & w' & _ & _ & _ & H)]]; try done.
    by rewrite to_int_id in H.
Qed.

Lemma cleanup_without_repeats_witness :
  exists w'',
    err_exit (Locals 1 0 None (Some (B "dfA001host")) (B "q"))
      (World [] [Ack; ExpectedButGot 5 3]
             (<[B "dfA001host" := Reg 128 (B "abc")]> sample_queue_dir) ∅)
    = Returned EXIT_FAILURE w''
    /\ cwd w'' = sample_queue_dir.
Proof.
  assert (Hit : lpd_iter [] spooling_locals (queue_world short_transfer)
                = ErrExit (Locals 1 0 None (Some (B "dfA001host")) (B "q"))
                    (World [] [Ack; ExpectedButGot 5 3]
                       (<[B "dfA001host" := Reg 128 (B "abc")]> sample_queue_dir) ∅))
    by (vm_compute; reflexivity).
  pose proof (cleanup_without_repeats [] sample_queue_dir spooling_locals
                (queue_world short_transfer)
                (tracked_start spooling_locals (queue_world short_transfer)
                   eq_refl eq_refl)) as H.
  rewrite Hit in H. apply H.
  - simpl. lia.
  - unfold int_range, INT_MAX. simpl. lia.
  - simpl. lia.
  - intros s0 len fname v1 w1 _. unfold slot. simpl. by destruct (s0 - 2 =? 0).
Defined.

(** ** A sink that is not there *)

(** X14: in sink mode a data-file subcommand for a queue name that is not a
    file in the spool directory ends the process with status 1 at line
    235, before a byte of the payload is read and with the directory as it
    was. *)
Theorem sink_without_target (argv : list name) (v v1 : locals) (w w1 : world)
    (len : Z) (fname : name) :
  spooling v = 0 ->
  read_subcmd v w = Go (3, len, fname, v1, w1) ->
  (forall mode data, cwd w !! queue v <> Some (Reg mode data)) ->
  lpd_iter argv v w = Leave (Died (put (CannotOpen (queue v)) w1))
  /\ exit_status (Died (put (CannotOpen (queue v)) w1)) = Some EXIT_FAILURE
  /\ cwd w1 = cwd w.
Proof.
  intros Hsp Hread Hmiss. rewrite lpd_iter_unfold, Hread.
  apply read_subcmd_Go in Hread as ((s & Hs & _) & _ & _ & -> & _).
  apply xmalloc_read_stdin_Some in Hs as (_ & _ & _ & Hw1).
  assert (Hc1 : cwd w1 = cwd w) by (by rewrite Hw1).
  split_and!; [|done..]. unfold open_dest, xopen. simpl. rewrite Hsp. simpl.
  rewrite Hc1. destruct (cwd w !! queue v) as [[mode data|]|] eqn:Hq; try done.
  by destruct (Hmiss mode data).
Qed.

Lemma sink_without_target_witness :
  lpd_iter [] (Locals 0 0 None None (B "nosuch"))
    (sample_world (subcommand 3 "5 dfA" (B "hello") 0))
  = Leave (Died (World (B "hello" ++ byte 0) [Ack; CannotOpen (B "nosuch")]
                       sample_spool ∅)).
Proof.
  apply (sink_without_target [] (Locals 0 0 None None (B "nosuch"))
           (Locals 0 0 None None (B "nosuch"))
           (sample_world (subcommand 3 "5 dfA" (B "hello") 0))
           (World (B "hello" ++ byte 0) [Ack] sample_spool ∅)
           5 (B "dfA"));
    [reflexivity | vm_compute; reflexivity |].
  intros mode data. vm_compute. discriminate.
Defined.

(** ** The queue *)

(** X15: after a first command with byte 2 whose queue name [sane] does not
    empty, the loop is entered with the sanitized name as queue, an empty
    [seen] and no file names; in spooling mode (1) inside the directory of
    that name when the spool directory has one, in sink mode (0) in the
    spool directory otherwise; nothing has been sent to the peer yet. *)
Theorem queue_kind_selects_mode (spooling0 : Z) (w w0 : world) (s : list ascii) :
  xmalloc_read_stdin w = Some (s, w0) ->
  byte_val (hd NUL s) = 2 ->
  sane (tl s) <> [] ->
  exists v w1,
    lpd_start spooling0 w = Go (v, w1)
    /\ queue v = sane (tl s) /\ seen v = 0
    /\ filenames0 v = None /\ filenames1 v = None
    /\ stdout w1 = stdout w /\ stdin w1 = stdin w0
    /\ ((exists entries, cwd w !! sane (tl s) = Some (Dir entries)
                         /\ spooling v = 1 /\ cwd w1 = entries)
        \/ ((forall entries, cwd w !! sane (tl s) <> Some (Dir entries))
            /\ spooling v = 0 /\ cwd w1 = cwd w)).
Proof.
  intros Hread Hcmd Hq. unfold lpd_start. rewrite Hread. cbv zeta.
  rewrite Hcmd. simpl.
  apply xmalloc_read_stdin_Some in Hread as (_ & _ & _ & Hw0).
  assert (Hc0 : cwd w0 = cwd w) by (by rewrite Hw0).
  assert (Ho0 : stdout w0 = stdout w) by (by rewrite Hw0).
  destruct (sane (tl s)) as [|c q] eqn:Hs; [done|].
  unfold chdir. rewrite Hc0.
  destruct (cwd w !! (c :: q)) as [[mode data|entries]|] eqn:Hl; simpl.
  - do 2 eexists. split_and!; try done. right. by split_and!.
  - do 2 eexists. split_and!; try done. left. by exists entries.
  - do 2 eexists. split_and!; try done. right. by split_and!.
Qed.

Lemma queue_kind_selects_mode_witness :
  exists v w1,
    lpd_start 0 (sample_world (receive_job "../q" ++ two_data_files)) = Go (v, w1)
    /\ queue v = B "q" /\ spooling v = 1 /\ cwd w1 = sample_queue_dir.
Proof.
  destruct (queue_kind_selects_mode 0
              (sample_world (receive_job "../q" ++ two_data_files))
              (World two_data_files [] sample_spool ∅)
              (receive_job "../q") eq_refl eq_refl
              ltac:(vm_compute; discriminate))
    as (v & w1 & Hs & Hq & _ & _ & _ & _ & _ & Hmode).
  exists v, w1. split_and!; [done | done | |].
  - destruct Hmode as [(e & _ & ? & _)|(Hno & _)]; [done|].
    exfalso. apply (Hno sample_queue_dir). vm_compute. reflexivity.
  - destruct Hmode as [(e & He & _ & ->)|(Hno & _)].
    + vm_compute in He. by simplify_eq.
    + exfalso. apply (Hno sample_queue_dir). vm_compute. reflexivity.
Defined.
